(** * Watchlist backend: data-access layer, credential service,
      market-data client and request handlers

    A shallow embedding of [backend/models.py], [backend/schemas.py],
    [backend/crud.py], [backend/alphavantage.py] and [backend/main.py].
    Python modules become Rocq modules of the same name, ORM classes and
    request schemas become records, the SQLAlchemy session becomes an
    explicit table state that is passed through every data-access function,
    and raised exceptions become the [Raise] branch of a result type. *)

From Stdlib Require Import ZArith Floats.PrimFloat.
From stdpp Require Import base option list strings gmap.

Local Open Scope string_scope.
Local Open Scope list_scope.
Local Open Scope Z_scope.

(** ** Python values shared by all modules *)

(** The exceptions the backend raises, catches or lets through. *)
Inductive exn : Type :=
  | NameError (name : string)
  | ValueError (msg : string)
  | JSONDecodeError (msg : string)
  | HTTPStatusError (status_code : Z)
  | RequestError (msg : string)
  | JWTError
  | ValidationError
  | IntegrityError
  | HTTPException (status_code : Z) (detail : string).

(** [isinstance(e, ValueError)]: [json.JSONDecodeError] derives from
    [ValueError], the httpx, jose and storage errors do not. *)
Definition isinstance_ValueError (e : exn) : bool :=
  match e with
  | ValueError _ | JSONDecodeError _ => true
  | _ => false
  end.

(** [isinstance(e, httpx.HTTPError)]: what the provider or the network
    caused, a refused status ([HTTPStatusError]) or a failed transfer
    ([RequestError]). *)
Definition isinstance_HTTPError (e : exn) : bool :=
  match e with
  | HTTPStatusError _ | RequestError _ => true
  | _ => false
  end.

(** [str(e)] for the exceptions whose text the handlers forward. *)
Definition str (e : exn) : string :=
  match e with
  | NameError n => "name '" +:+ n +:+ "' is not defined"
  | ValueError m | JSONDecodeError m | RequestError m => m
  | HTTPStatusError _ => "HTTP status error"
  | JWTError => "JWT error"
  | ValidationError => "validation error"
  | IntegrityError => "integrity error"
  | HTTPException _ d => d
  end.

(** The outcome of a call: a returned value or a raised exception. *)
Inductive result (A : Type) : Type :=
  | Return (a : A)
  | Raise (e : exn).
Arguments Return {A} a.
Arguments Raise {A} e.

Definition bind_result {A B} (r : result A) (k : A -> result B) : result B :=
  match r with
  | Return a => k a
  | Raise e => Raise e
  end.

(** The HTTP status a caller sees: an [HTTPException] keeps its status
    code, any other escaped exception is answered with 500. *)
Definition http_status {A} (r : result A) : Z :=
  match r with
  | Return _ => 200
  | Raise (HTTPException code _) => code
  | Raise _ => 500
  end.

(** JSON documents, as returned verbatim by the market-data provider and
    as decoded from a token payload. *)
#[warnings="-register-all"] Inductive json : Type :=
  | JNull
  | JBool (b : bool)
  | JNum (n : Z)
  | JStr (s : string)
  | JArr (items : list json)
  | JObj (fields : list (string * json)).

(** ** models.py: the stored rows *)
Module models.

Module User.
Record t : Type := mk
      { id : Z;
        email : string;
        hashed_password : string;
        is_active : bool;
        telegram_chat_id : option string;
        telegram_bot_token : option string }.
End User.

Module WatchlistItem.
Record t : Type := mk
      { id : Z;
        symbol : string;
        company_name : string;
        owner_id : Z }.
End WatchlistItem.

Module StockNote.
Record t : Type := mk
      { id : Z;
        symbol : string;
        note : string;
        owner_id : Z }.
End StockNote.

Module Alert.
Record t : Type := mk
      { id : Z;
        symbol : string;
        alert_type : string;
        threshold : float;
        is_active : bool;
        owner_id : Z }.
End Alert.

End models.

(** ** schemas.py: the request payloads *)
Module schemas.

Module UserCreate.
Record t : Type := mk { email : string; password : string }.
End UserCreate.

Module UserUpdate.
Record t : Type := mk
      { telegram_chat_id : option string;
        telegram_bot_token : option string }.
End UserUpdate.

Module TokenData.
Record t : Type := mk { email : option string }.
End TokenData.

Module WatchlistItemCreate.
Record t : Type := mk { symbol : string; company_name : string }.
End WatchlistItemCreate.

Module StockNoteCreate.
Record t : Type := mk { symbol : string; note : string }.
End StockNoteCreate.

Module AlertCreate.
Record t : Type := mk
      { symbol : string;
        alert_type : string;
        threshold : float;
        is_active : bool }.
End AlertCreate.

End schemas.

(** ** The storage session *)

(** Modelled from the spec: [backend/database.py] and the SQLAlchemy
    engine behind it are not among the sources; section 1 treats the store
    as a generic persistent store with relations.  A session is the content
    of the four tables in row order, a committed insert appends a row under
    a primary key that is not in use, and the [unique] flag of
    [models.User.email] rejects a second row with the same email. *)
Module database.

Record Session : Type := mkSession
    { users : list models.User.t;
      watchlist_items : list models.WatchlistItem.t;
      stock_notes : list models.StockNote.t;
      alerts : list models.Alert.t }.

Definition empty : Session := mkSession [] [] [] [].

(** The key given to the next inserted row: one above the largest key of
    the table, starting at 1. *)
Definition fresh_id (ids : list Z) : Z := 1 + foldr Z.max 0 ids.

(** [query.first()]: the first row of the selection, or [None]. *)
Definition first {A} (rows : list A) : option A := head rows.

End database.
Export database.

(** ** crud.py: credential service and data-access layer *)

(** The interface of passlib's [CryptContext], which the module
    instantiates once as [pwd_context].  Hashing draws a fresh salt, made
    explicit as the first argument of [hash]. *)
Class CryptContext : Type :=
  { hash : string -> string -> string;
    verify : string -> string -> bool }.

(** What the credential service relies on from the hashing primitive:
    a password verifies against each of its hashes, and a hash is never
    the password it was computed from. *)
Class CryptContextLaws (pwd_context : CryptContext) : Prop :=
  { verify_hash : forall salt p, verify p (hash salt p) = true;
    hash_neq : forall salt p, hash salt p <> p }.

(** The claims of a decoded token. *)
Abbreviation payload := (gmap string json).

(** The interface of [jose.jwt.decode]: it checks signature, expiry and
    shape of [token] under a key and a list of algorithms, returns the
    claims or raises [JWTError]. *)
Class Jose : Type :=
  { jwt_decode : string -> string -> list string -> result payload }.

(** The interface of [jose.jwt.encode]: the signed token for a set of
    claims under a key and an algorithm. *)
Class JoseSigning : Type :=
  { jwt_encode : gmap string json -> string -> string -> string }.

(** Points in time and durations, both counted in microseconds: a
    [datetime] is the time since the epoch, a [timedelta] a difference of
    two. *)
Module datetime.

Definition minutes (n : Z) : Z := n * 60000000.

(** Truthiness of an optional [timedelta]: [None] and the zero duration
    are falsy. *)
Definition truthy (expires_delta : option Z) : bool :=
  match expires_delta with
  | None => false
  | Some d => negb (d =? 0)
  end.

End datetime.

Module crud.

(** The names bound at module level: the imports of lines 1 to 8, the
    assignment of line 10 and the functions the module defines. *)
Definition module_globals : list string :=
    [ "datetime"; "timedelta"; "Optional"; "Session"; "CryptContext";
      "JWTError"; "jwt"; "models"; "schemas"; "config"; "pwd_context";
      "get_password_hash"; "verify_password"; "get_user";
      "get_user_by_email"; "get_users"; "create_user"; "authenticate_user";
      "create_access_token"; "get_current_user"; "get_watchlist_items";
      "create_watchlist_item"; "delete_watchlist_item"; "get_stock_note";
      "create_or_update_stock_note"; "get_alerts"; "create_alert";
      "delete_alert"; "update_user_settings" ].

(** Reading a global name inside a function body: the name is looked up
    when the statement runs, and an unbound one raises [NameError]. *)
Definition load_global (globals : list string) (name : string) : result unit :=
    if decide (name ∈ globals) then Return tt else Raise (NameError name).

(** The value [authenticate_user] hands back: the literal [False] or
    the user row. *)
Inductive False_or_User : Type :=
    | PyFalse
    | PyUser (user : models.User.t).

(** Truthiness of that value, as tested by [if not user]. *)
Definition truthy (v : False_or_User) : bool :=
    match v with PyFalse => false | PyUser _ => true end.

Section with_context.
Context {pwd_context : CryptContext} {jose : Jose}.
(** [config.SECRET_KEY] and [config.ALGORITHM]; [backend/config.py] is
    not among the sources. *)
Variables (SECRET_KEY ALGORITHM : string).

Definition get_password_hash (salt password : string) : string :=
      hash salt password.

Definition verify_password (plain_password hashed_password : string) : bool :=
      verify plain_password hashed_password.

Definition get_user (db : Session) (user_id : Z) : option models.User.t :=
      first (filter (λ u, models.User.id u = user_id) (users db)).

Definition get_user_by_email (db : Session) (email : string)
      : option models.User.t :=
      first (filter (λ u, models.User.email u = email) (users db)).

Definition get_users (db : Session) (skip limit : nat) : list models.User.t :=
      take limit (drop skip (users db)).

(** [db.add; db.commit; db.refresh]: the row is appended under a fresh
    key with the column defaults; the unique index on [email] makes
    the commit raise when the email is already stored. *)
Definition create_user (salt : string) (db : Session) (user : schemas.UserCreate.t)
      : result models.User.t * Session :=
      let hashed_password := get_password_hash salt (schemas.UserCreate.password user) in
      let db_user :=
        models.User.mk (fresh_id (models.User.id <$> users db))
          (schemas.UserCreate.email user) hashed_password true None None in
      if decide (schemas.UserCreate.email user ∈ models.User.email <$> users db)
      then (Raise IntegrityError, db)
      else (Return db_user,
            mkSession (users db ++ [db_user]) (watchlist_items db)
              (stock_notes db) (alerts db)).

Definition authenticate_user (db : Session) (email password : string)
      : False_or_User :=
      match get_user_by_email db email with
      | None => PyFalse
      | Some user =>
          if negb (verify_password password (models.User.hashed_password user))
          then PyFalse
          else PyUser user
      end.

Section name_resolution.
(** The global names in scope of the function body. *)
Variable globals : list string.

Definition get_current_user_in (db : Session) (token : string)
        : result models.User.t :=
        bind_result (load_global globals "HTTPException") (λ _,
        bind_result (load_global globals "status") (λ _,
        let credentials_exception :=
          HTTPException 401 "Could not validate credentials" in
        let try_block : result schemas.TokenData.t :=
          bind_result (jwt_decode token SECRET_KEY [ALGORITHM]) (λ payload,
            match payload !! "sub" with
            | None | Some JNull => Raise credentials_exception
            | Some (JStr email) => Return (schemas.TokenData.mk (Some email))
            | Some _ => Raise ValidationError
            end) in
        let guarded : result schemas.TokenData.t :=
          match try_block with
          | Raise JWTError => Raise credentials_exception
          | r => r
          end in
        bind_result guarded (λ token_data,
          match schemas.TokenData.email token_data with
          | None => Raise credentials_exception
          | Some email =>
              match get_user_by_email db email with
              | None => Raise credentials_exception
              | Some user => Return user
              end
          end))).
End name_resolution.

Definition get_current_user (db : Session) (token : string)
      : result models.User.t :=
      get_current_user_in module_globals db token.

End with_context.
(** *** Watchlist items *)

Definition get_watchlist_items (db : Session) (user_id : Z)
  : list models.WatchlistItem.t :=
  filter (λ r, models.WatchlistItem.owner_id r = user_id) (watchlist_items db).

(** The row is built from the dumped payload, which carries exactly the
    two declared fields, and from the keyword [owner_id=user_id]. *)
Definition create_watchlist_item (db : Session)
    (item : schemas.WatchlistItemCreate.t) (user_id : Z)
  : models.WatchlistItem.t * Session :=
  let db_item :=
    models.WatchlistItem.mk
      (fresh_id (models.WatchlistItem.id <$> watchlist_items db))
      (schemas.WatchlistItemCreate.symbol item)
      (schemas.WatchlistItemCreate.company_name item)
      user_id in
  (db_item,
   mkSession (users db) (watchlist_items db ++ [db_item]) (stock_notes db)
     (alerts db)).

(** [db.delete(row); db.commit()] removes the row stored under the key of
    [row]. *)
Definition delete_watchlist_item (db : Session) (item_id user_id : Z)
  : option models.WatchlistItem.t * Session :=
  let db_item :=
    first (filter (λ r, models.WatchlistItem.id r = item_id
                        ∧ models.WatchlistItem.owner_id r = user_id)
             (watchlist_items db)) in
  match db_item with
  | Some row =>
      (db_item,
       mkSession (users db)
         (filter (λ r, models.WatchlistItem.id r ≠ models.WatchlistItem.id row)
            (watchlist_items db))
         (stock_notes db) (alerts db))
  | None => (db_item, db)
  end.

(** *** Stock notes *)

Definition get_stock_note (db : Session) (user_id : Z) (symbol : string)
  : option models.StockNote.t :=
  first (filter (λ r, models.StockNote.owner_id r = user_id
                      ∧ models.StockNote.symbol r = symbol)
           (stock_notes db)).

(** The column write that the commit flushes for a changed note. *)
Definition set_note (key : Z) (note_content : string) (r : models.StockNote.t)
  : models.StockNote.t :=
  if decide (models.StockNote.id r = key)
  then models.StockNote.mk (models.StockNote.id r) (models.StockNote.symbol r)
         note_content (models.StockNote.owner_id r)
  else r.

Definition create_or_update_stock_note (db : Session) (user_id : Z)
    (symbol note_content : string)
  : models.StockNote.t * Session :=
  match get_stock_note db user_id symbol with
  | Some db_note =>
      (set_note (models.StockNote.id db_note) note_content db_note,
       mkSession (users db) (watchlist_items db)
         (set_note (models.StockNote.id db_note) note_content <$> stock_notes db)
         (alerts db))
  | None =>
      let db_note :=
        models.StockNote.mk (fresh_id (models.StockNote.id <$> stock_notes db))
          symbol note_content user_id in
      (db_note,
       mkSession (users db) (watchlist_items db) (stock_notes db ++ [db_note])
         (alerts db))
  end.

(** *** Alerts *)

Definition get_alerts (db : Session) (user_id : Z) : list models.Alert.t :=
  filter (λ r, models.Alert.owner_id r = user_id) (alerts db).

Definition create_alert (db : Session) (alert : schemas.AlertCreate.t)
    (user_id : Z)
  : models.Alert.t * Session :=
  let db_alert :=
    models.Alert.mk (fresh_id (models.Alert.id <$> alerts db))
      (schemas.AlertCreate.symbol alert)
      (schemas.AlertCreate.alert_type alert)
      (schemas.AlertCreate.threshold alert)
      (schemas.AlertCreate.is_active alert)
      user_id in
  (db_alert,
   mkSession (users db) (watchlist_items db) (stock_notes db)
     (alerts db ++ [db_alert])).

Definition delete_alert (db : Session) (alert_id user_id : Z)
  : option models.Alert.t * Session :=
  let db_alert :=
    first (filter (λ r, models.Alert.id r = alert_id
                        ∧ models.Alert.owner_id r = user_id)
             (alerts db)) in
  match db_alert with
  | Some row =>
      (db_alert,
       mkSession (users db) (watchlist_items db) (stock_notes db)
         (filter (λ r, models.Alert.id r ≠ models.Alert.id row) (alerts db)))
  | None => (db_alert, db)
  end.

(** *** Settings *)

(** [if value is not None: user.field = value]. *)
Definition assign_if_not_None {A} (value : option A) (field : option A)
  : option A :=
  match value with
  | Some v => Some v
  | None => field
  end.

(** The two guarded assignments of lines 121 to 124 on one user object. *)
Definition apply_settings (settings : schemas.UserUpdate.t) (u : models.User.t)
  : models.User.t :=
  models.User.mk (models.User.id u) (models.User.email u)
    (models.User.hashed_password u) (models.User.is_active u)
    (assign_if_not_None (schemas.UserUpdate.telegram_chat_id settings)
       (models.User.telegram_chat_id u))
    (assign_if_not_None (schemas.UserUpdate.telegram_bot_token settings)
       (models.User.telegram_bot_token u)).

(** The commit writes the object back to the row stored under its key;
    the refreshed object is returned. *)
Definition update_user_settings (db : Session) (user : models.User.t)
    (settings : schemas.UserUpdate.t)
  : models.User.t * Session :=
  let user' := apply_settings settings user in
  (user',
   mkSession
     ((λ r, if decide (models.User.id r = models.User.id user) then user' else r)
        <$> users db)
     (watchlist_items db) (stock_notes db) (alerts db)).

(** *** Token issuance *)

Section tokens.
Context {signing : JoseSigning}.
Variables (SECRET_KEY ALGORITHM : string).

(** [utcnow] is the value of [datetime.utcnow()] at the call; the [exp]
    claim holds the expiry time. *)
Definition create_access_token (data : gmap string json)
    (expires_delta : option Z) (utcnow : Z) : string :=
  let to_encode := data in
  let expire :=
    if datetime.truthy expires_delta
    then utcnow + default 0 expires_delta
    else utcnow + datetime.minutes 15 in
  let to_encode := <["exp" := JNum expire]> to_encode in
  jwt_encode to_encode SECRET_KEY ALGORITHM.

End tokens.

End crud.

(** ** The HTTP client and the event loop *)

(** What the handlers see of httpx: a GET request is its URL and query
    parameters, the provider answers with a status and a body or the
    connection fails. *)
Module httpx.

Inductive param : Type :=
  | PStr (s : string)
  | PInt (n : Z).

Abbreviation params := (gmap string param).

Abbreviation request := (string * gmap string param)%type.

Inductive reply : Type :=
  | ConnectError (msg : string)
  | Response (status_code : Z) (body : option json).

(** [Response.is_success], the test behind [raise_for_status]. *)
Definition is_success (status_code : Z) : bool :=
  (200 <=? status_code) && (status_code <? 300).

End httpx.

(** What the handlers see of asyncio: a coroutine runs against the log of
    requests sent so far and ends in a value or an exception. *)
Module asyncio.

Definition aio (A : Type) : Type :=
  list httpx.request -> result A * list httpx.request.

(** A [try] block with its [except] clause around an awaited coroutine. *)
Definition try_except {A} (body : aio A) (handler : exn -> result A) : aio A :=
  λ sent,
    match body sent with
    | (Return a, sent') => (Return a, sent')
    | (Raise e, sent') => (handler e, sent')
    end.

(** Every awaitable passed to [gather] becomes a task; the tasks start in
    argument order and none is cancelled when another one fails. *)
Fixpoint run_all {A} (aws : list (aio A)) (sent : list httpx.request)
  : list (result A) * list httpx.request :=
  match aws with
  | [] => ([], sent)
  | c :: rest =>
      let '(r, sent1) := c sent in
      let '(rs, sent2) := run_all rest sent1 in
      (r :: rs, sent2)
  end.

(** The exception of the first task, in the given order, that raised. *)
Fixpoint first_raised {A} (order : list nat) (rs : list (result A))
  : option exn :=
  match order with
  | [] => None
  | i :: order' =>
      match rs !! i with
      | Some (Raise e) => Some e
      | _ => first_raised order' rs
      end
  end.

Definition returned {A} (r : result A) : option A :=
  match r with
  | Return a => Some a
  | Raise _ => None
  end.

(** [asyncio.gather] over [aws] with [return_exceptions] left false: the
    results in argument order when every task returns, otherwise the
    exception of the task that failed first.  [order] is the order in
    which the event loop sees the tasks finish; tasks it does not list
    follow in argument order. *)
Definition gather {A} (order : list nat) (aws : list (aio A)) : aio (list A) :=
  λ sent,
    let '(rs, sent') := run_all aws sent in
    match first_raised (order ++ seq 0 (length rs)) rs with
    | Some e => (Raise e, sent')
    | None => (Return (omap returned rs), sent')
    end.

End asyncio.

(** ** alphavantage.py: the market-data client *)
Module alphavantage.
Import httpx asyncio.

Definition BASE_URL : string := "https://www.alphavantage.co/query".

(** [not ALPHA_VANTAGE_API_KEY] on the value of [os.getenv]: an unset
    variable is [None], and the empty string is falsy as well. *)
Definition not_ (key : option string) : bool :=
  match key with
  | None => true
  | Some k => bool_decide (k = "")
  end.

(** The [function] parameter of each request of a log, in order. *)
Definition functions_of (sent : list request) : list param :=
  omap (λ rq, snd rq !! "function") sent.

Section client.
(** The key read from the environment when the module is loaded. *)
Variable ALPHA_VANTAGE_API_KEY : option string.
(** The provider: its answer to a request, given the requests before it. *)
Variable upstream : list request -> request -> reply.

Definition _get_json_async (params : gmap string param) : aio json :=
  λ sent,
    if not_ ALPHA_VANTAGE_API_KEY
    then (Raise (ValueError "ALPHA_VANTAGE_API_KEY environment variable not set."),
          sent)
    else
      let params := <["apikey" := PStr (default "" ALPHA_VANTAGE_API_KEY)]> params in
      let sent' := sent ++ [(BASE_URL, params)] in
      match upstream sent (BASE_URL, params) with
      | ConnectError msg => (Raise (RequestError msg), sent')
      | Response status_code body =>
          if is_success status_code
          then match body with
               | Some data => (Return data, sent')
               | None => (Raise (JSONDecodeError "Expecting value"), sent')
               end
          else (Raise (HTTPStatusError status_code), sent')
      end.

Definition search_stock_async (keywords : string) : aio json :=
  _get_json_async
    (<["function" := PStr "SYMBOL_SEARCH"]> (<["keywords" := PStr keywords]> ∅)).

Definition get_company_overview_async (symbol : string) : aio json :=
  _get_json_async
    (<["function" := PStr "OVERVIEW"]> (<["symbol" := PStr symbol]> ∅)).

Definition get_earnings_async (symbol : string) : aio json :=
  _get_json_async
    (<["function" := PStr "EARNINGS"]> (<["symbol" := PStr symbol]> ∅)).

Definition get_daily_time_series_async (symbol : string) : aio json :=
  _get_json_async
    (<["function" := PStr "TIME_SERIES_DAILY"]>
       (<["symbol" := PStr symbol]> (<["outputsize" := PStr "compact"]> ∅))).

Definition get_rsi_async (symbol interval : string) (time_period : Z) : aio json :=
  _get_json_async
    (<["function" := PStr "RSI"]>
       (<["symbol" := PStr symbol]>
          (<["interval" := PStr interval]>
             (<["time_period" := PInt time_period]>
                (<["series_type" := PStr "close"]> ∅))))).

Definition get_bollinger_bands_async (symbol interval : string) (time_period : Z)
  : aio json :=
  _get_json_async
    (<["function" := PStr "BBANDS"]>
       (<["symbol" := PStr symbol]>
          (<["interval" := PStr interval]>
             (<["time_period" := PInt time_period]>
                (<["series_type" := PStr "close"]> ∅))))).

Definition get_news_sentiment_async (symbol : string) : aio json :=
  _get_json_async
    (<["function" := PStr "NEWS_SENTIMENT"]> (<["tickers" := PStr symbol]> ∅)).

End client.
End alphavantage.

(** ** telegram_bot.py: the notification client *)
Module telegram_bot.

(** A message handed to the bot library: token, chat and text. *)
Abbreviation outgoing := (string * string * string)%type.

(** [not TELEGRAM_BOT_TOKEN] on the value of [os.getenv]. *)
Definition not_ (token : option string) : bool :=
  match token with
  | None => true
  | Some t => bool_decide (t = "")
  end.

Section bot.
(** The token read from the environment when the module is loaded. *)
Variable TELEGRAM_BOT_TOKEN : option string.
(** The bot library: the outcome of [Bot(token).send_message], given the
    messages handed over before. *)
Variable send_message : list outgoing -> outgoing -> result unit.

Definition send_telegram_message (chat_id message : string)
  : list outgoing -> result unit * list outgoing :=
  λ outbox,
    if not_ TELEGRAM_BOT_TOKEN
    then (Raise (ValueError "TELEGRAM_BOT_TOKEN environment variable not set."),
          outbox)
    else
      let m := (default "" TELEGRAM_BOT_TOKEN, chat_id, message) in
      (send_message outbox m, outbox ++ [m]).

End bot.
End telegram_bot.

(** The login form of [fastapi.security]. *)
Module OAuth2PasswordRequestForm.
Record t : Type := mk { username : string; password : string }.
End OAuth2PasswordRequestForm.

(** ** main.py: the request handlers *)

(** Each handler is the function under its route decorator.  The values
    FastAPI injects ([db] from [get_db], [current_user] from
    [crud.get_current_user]) are its parameters, as in the source; a
    handler that touches the store returns the session it leaves. *)
Module main.
Import httpx asyncio.

Section app.
Context {pwd_context : CryptContext}.
Variable ALPHA_VANTAGE_API_KEY : option string.
Variable upstream : list request -> request -> reply.
(** The order in which the tasks of the fan-out finish. *)
Variable order : list nat.

Definition create_user (salt : string) (user : schemas.UserCreate.t) (db : Session)
  : result models.User.t * Session :=
  match crud.get_user_by_email db (schemas.UserCreate.email user) with
  | Some _ => (Raise (HTTPException 400 "Email already registered"), db)
  | None => crud.create_user salt db user
  end.

Definition read_users_me (current_user : models.User.t) : models.User.t :=
  current_user.

Definition update_users_me_settings (settings : schemas.UserUpdate.t)
    (db : Session) (current_user : models.User.t)
  : models.User.t * Session :=
  crud.update_user_settings db current_user settings.

Definition search_stock_endpoint (keywords : string) : aio json :=
  try_except
    (alphavantage.search_stock_async ALPHA_VANTAGE_API_KEY upstream keywords)
    (λ e, if isinstance_ValueError e
          then Raise (HTTPException 400 (str e))
          else Raise (HTTPException 500 "Error fetching stock data")).

(** The six awaitables handed to [asyncio.gather], in argument order; the
    two indicators run with their default interval and period. *)
Definition stock_detail_calls (symbol : string) : list (aio json) :=
  [ alphavantage.get_company_overview_async ALPHA_VANTAGE_API_KEY upstream symbol;
    alphavantage.get_earnings_async ALPHA_VANTAGE_API_KEY upstream symbol;
    alphavantage.get_daily_time_series_async ALPHA_VANTAGE_API_KEY upstream symbol;
    alphavantage.get_rsi_async ALPHA_VANTAGE_API_KEY upstream symbol "daily" 14;
    alphavantage.get_bollinger_bands_async ALPHA_VANTAGE_API_KEY upstream symbol
      "daily" 20;
    alphavantage.get_news_sentiment_async ALPHA_VANTAGE_API_KEY upstream symbol ].

(** The tuple assignment from the gathered list and the returned dict;
    unpacking a list of another length raises [ValueError]. *)
Definition stock_details (gathered : list json) : result (gmap string json) :=
  match gathered with
  | [overview; earnings; daily_data; rsi; bbands; news_sentiment] =>
      Return
        (<["overview" := overview]>
           (<["earnings" := earnings]>
              (<["daily_data" := daily_data]>
                 (<["rsi" := rsi]>
                    (<["bbands" := bbands]>
                       (<["news_sentiment" := news_sentiment]> ∅))))))
  | _ => Raise (ValueError "not enough values to unpack")
  end.

Definition get_stock_details_endpoint (symbol : string) : aio (gmap string json) :=
  try_except
    (λ sent,
       match gather order (stock_detail_calls symbol) sent with
       | (Return gathered, sent') => (stock_details gathered, sent')
       | (Raise e, sent') => (Raise e, sent')
       end)
    (λ e, if isinstance_ValueError e
          then Raise (HTTPException 400 (str e))
          else Raise (HTTPException 500 "Error fetching stock details")).

Definition add_to_watchlist (item : schemas.WatchlistItemCreate.t) (db : Session)
    (current_user : models.User.t)
  : models.WatchlistItem.t * Session :=
  crud.create_watchlist_item db item (models.User.id current_user).

Definition get_watchlist (db : Session) (current_user : models.User.t)
  : list models.WatchlistItem.t :=
  crud.get_watchlist_items db (models.User.id current_user).

Definition delete_from_watchlist (item_id : Z) (db : Session)
    (current_user : models.User.t)
  : result (gmap string json) * Session :=
  let '(db_item, db') :=
    crud.delete_watchlist_item db item_id (models.User.id current_user) in
  match db_item with
  | None => (Raise (HTTPException 404 "Item not found in watchlist"), db')
  | Some _ => (Return {[ "message" := JStr "Item deleted successfully" ]}, db')
  end.

Definition create_stock_note (note : schemas.StockNoteCreate.t) (db : Session)
    (current_user : models.User.t)
  : models.StockNote.t * Session :=
  crud.create_or_update_stock_note db (models.User.id current_user)
    (schemas.StockNoteCreate.symbol note) (schemas.StockNoteCreate.note note).

Definition get_stock_note (symbol : string) (db : Session)
    (current_user : models.User.t)
  : option models.StockNote.t :=
  crud.get_stock_note db (models.User.id current_user) symbol.

Definition create_alert (alert : schemas.AlertCreate.t) (db : Session)
    (current_user : models.User.t)
  : models.Alert.t * Session :=
  crud.create_alert db alert (models.User.id current_user).

Definition get_alerts (db : Session) (current_user : models.User.t)
  : list models.Alert.t :=
  crud.get_alerts db (models.User.id current_user).

Definition delete_alert (alert_id : Z) (db : Session)
    (current_user : models.User.t)
  : result (gmap string json) * Session :=
  let '(db_alert, db') :=
    crud.delete_alert db alert_id (models.User.id current_user) in
  match db_alert with
  | None => (Raise (HTTPException 404 "Alert not found"), db')
  | Some _ => (Return {[ "message" := JStr "Alert deleted successfully" ]}, db')
  end.

End app.

Section accounts.
Context {pwd_context : CryptContext} {signing : JoseSigning}.
(** [config.SECRET_KEY], [config.ALGORITHM] and
    [config.ACCESS_TOKEN_EXPIRE_MINUTES]; [backend/config.py] is not among
    the sources. *)
Variables (SECRET_KEY ALGORITHM : string) (ACCESS_TOKEN_EXPIRE_MINUTES : Z).

Definition login_for_access_token (form_data : OAuth2PasswordRequestForm.t)
    (db : Session) (utcnow : Z)
  : result (gmap string json) :=
  match crud.authenticate_user db
          (OAuth2PasswordRequestForm.username form_data)
          (OAuth2PasswordRequestForm.password form_data) with
  | crud.PyFalse => Raise (HTTPException 401 "Incorrect username or password")
  | crud.PyUser user =>
      let access_token_expires := datetime.minutes ACCESS_TOKEN_EXPIRE_MINUTES in
      let access_token :=
        crud.create_access_token SECRET_KEY ALGORITHM
          {[ "sub" := JStr (models.User.email user) ]}
          (Some access_token_expires) utcnow in
      Return (<["access_token" := JStr access_token]>
                (<["token_type" := JStr "bearer"]> ∅))
  end.

End accounts.

Definition read_users (skip limit : nat) (db : Session) : list models.User.t :=
  crud.get_users db skip limit.

Definition read_user (user_id : Z) (db : Session) : result models.User.t :=
  match crud.get_user db user_id with
  | None => Raise (HTTPException 404 "User not found")
  | Some db_user => Return db_user
  end.

Section notifications.
Variable TELEGRAM_BOT_TOKEN : option string.
Variable send_message
  : list telegram_bot.outgoing -> telegram_bot.outgoing -> result unit.

Definition send_telegram_message_endpoint (chat_id message : string)
  : list telegram_bot.outgoing
    -> result (gmap string json) * list telegram_bot.outgoing :=
  λ outbox,
    match telegram_bot.send_telegram_message TELEGRAM_BOT_TOKEN send_message
            chat_id message outbox with
    | (Return _, outbox') =>
        (Return {[ "message" := JStr "Message sent successfully!" ]}, outbox')
    | (Raise e, outbox') =>
        (if isinstance_ValueError e
         then Raise (HTTPException 400 (str e))
         else Raise (HTTPException 500 "Error sending message"),
         outbox')
    end.

End notifications.
End main.

(** ** Histories of the data-access layer *)

(** The mutating operations of [crud.py] as commands, so that the states
    the store can reach are those obtained by running a list of commands
    from the empty store. *)
Module history.

Inductive op : Type :=
  | CreateUser (salt : string) (user : schemas.UserCreate.t)
  | UpdateUserSettings (user : models.User.t) (settings : schemas.UserUpdate.t)
  | CreateWatchlistItem (item : schemas.WatchlistItemCreate.t) (user_id : Z)
  | DeleteWatchlistItem (item_id user_id : Z)
  | CreateOrUpdateStockNote (user_id : Z) (symbol note_content : string)
  | CreateAlert (alert : schemas.AlertCreate.t) (user_id : Z)
  | DeleteAlert (alert_id user_id : Z).

Definition exec {pwd_context : CryptContext} (o : op) (db : Session) : Session :=
  match o with
  | CreateUser salt user => snd (crud.create_user salt db user)
  | UpdateUserSettings user settings =>
      snd (crud.update_user_settings db user settings)
  | CreateWatchlistItem item user_id =>
      snd (crud.create_watchlist_item db item user_id)
  | DeleteWatchlistItem item_id user_id =>
      snd (crud.delete_watchlist_item db item_id user_id)
  | CreateOrUpdateStockNote user_id symbol note_content =>
      snd (crud.create_or_update_stock_note db user_id symbol note_content)
  | CreateAlert alert user_id => snd (crud.create_alert db alert user_id)
  | DeleteAlert alert_id user_id => snd (crud.delete_alert db alert_id user_id)
  end.

Definition run {pwd_context : CryptContext} (ops : list op) (db : Session)
  : Session :=
  foldl (λ db o, exec o db) db ops.

Definition reachable {pwd_context : CryptContext} (db : Session) : Prop :=
  ∃ ops, db = run ops database.empty.

(** The notes stored for one owner and symbol. *)
Definition notes_of (db : Session) (user_id : Z) (symbol : string)
  : list models.StockNote.t :=
  filter (λ r, models.StockNote.owner_id r = user_id
               ∧ models.StockNote.symbol r = symbol)
    (stock_notes db).

(** At most one note per owner and symbol. *)
Definition notes_unique (db : Session) : Prop :=
  ∀ user_id symbol, (length (notes_of db user_id symbol) ≤ 1)%nat.

(** No two rows of a table share a primary key. *)
Definition ids_unique (db : Session) : Prop :=
  NoDup (models.User.id <$> users db)
  ∧ NoDup (models.WatchlistItem.id <$> watchlist_items db)
  ∧ NoDup (models.StockNote.id <$> stock_notes db)
  ∧ NoDup (models.Alert.id <$> alerts db).

(** No two users share an email. *)
Definition emails_unique (db : Session) : Prop :=
  NoDup (models.User.email <$> users db).

End history.

(** ** Instances used to run the model on concrete inputs *)
Module sample.

(** A stand-in for the hashing primitive: the hash is the password behind
    a fixed tag, whatever the salt. *)
Definition tagged : CryptContext :=
  {| hash := λ _ p, "$2b$" +:+ p;
     verify := λ p h, bool_decide (h = "$2b$" +:+ p) |}.

(** A stand-in for the token decoder: one token decodes to a subject, one
    to a payload without subject, every other token is rejected. *)
Definition decoder : Jose :=
  {| jwt_decode := λ token _ _,
       if decide (token = "tok-a") then Return {[ "sub" := JStr "a@x.com" ]}
       else if decide (token = "tok-nosub") then Return {[ "exp" := JNum 1 ]}
       else Raise JWTError |}.

(** A stand-in for the token encoder: the token names the subject. *)
Definition encoder : JoseSigning :=
  {| jwt_encode := λ claims _ _,
       match claims !! "sub" with
       | Some (JStr subject) => "jwt:" +:+ subject
       | _ => "jwt"
       end |}.

Definition user_a : models.User.t :=
  models.User.mk 1 "a@x.com" "$2b$pw1" true None None.

Definition user_b : models.User.t :=
  models.User.mk 2 "b@x.com" "$2b$pw2" true (Some "42") None.

Definition aapl_item : models.WatchlistItem.t :=
  models.WatchlistItem.mk 1 "AAPL" "Apple Inc." 1.

Definition aapl_alert : models.Alert.t :=
  models.Alert.mk 1 "AAPL" "RSI_BELOW" 30%float true 1.

(** Two users; a watchlist item and an alert owned by the first. *)
Definition db_ab : Session :=
  mkSession [user_a; user_b] [aapl_item] [] [aapl_alert].

(** A provider that answers every request with the same document. *)
Definition up_ok : list httpx.request -> httpx.request -> httpx.reply :=
  λ _ _, httpx.Response 200 (Some (JStr "data")).

(** A provider whose momentum-indicator endpoint cannot be reached. *)
Definition up_rsi_down : list httpx.request -> httpx.request -> httpx.reply :=
  λ _ req,
    match snd req !! "function" with
    | Some (httpx.PStr "RSI") => httpx.ConnectError "connection refused"
    | _ => httpx.Response 200 (Some (JStr "data"))
    end.

(** A provider whose momentum-indicator endpoint cannot be reached and
    whose overview endpoint answers 200 with a body that is not JSON. *)
Definition up_rsi_down_overview_garbled
  : list httpx.request -> httpx.request -> httpx.reply :=
  λ _ req,
    match snd req !! "function" with
    | Some (httpx.PStr "RSI") => httpx.ConnectError "connection refused"
    | Some (httpx.PStr "OVERVIEW") => httpx.Response 200 None
    | _ => httpx.Response 200 (Some (JStr "data"))
    end.

End sample.

(** * Properties *)

(** ** Queries *)

Section queries.
Context {A : Type} (P : A -> Prop) `{!∀ x, Decision (P x)}.

Lemma first_filter_None (rows : list A) :
  first (filter P rows) = None ↔ ∀ r, r ∈ rows → ¬ P r.
Proof.
  unfold first. induction rows as [|x rows IH]; simpl.
  - split; [intros _ r Hr; inversion Hr | done].
  - rewrite filter_cons. destruct (decide (P x)) as [HP|HP]; simpl.
    + split; [done | intros Hno; exfalso; apply (Hno x); [left | done]].
    + rewrite IH. split.
      * intros Hno r Hr.
        apply elem_of_cons in Hr as [->|Hr]; [done | by apply Hno].
      * intros Hno r Hr. apply Hno. by right.
Qed.

Lemma first_filter_Some (rows : list A) (r : A) :
  first (filter P rows) = Some r → r ∈ rows ∧ P r.
Proof.
  unfold first. intros Hhd.
  assert (r ∈ filter P rows) as Hin.
  { destruct (filter P rows) as [|y l]; simplify_eq/=. left. }
  by apply list_elem_of_filter in Hin as [? ?].
Qed.

Lemma filter_absent (rows : list A) :
  (∀ r, r ∈ rows → ¬ P r) → filter P rows = [].
Proof.
  intros Hno. apply first_filter_None in Hno. unfold first in Hno.
  by destruct (filter P rows).
Qed.

End queries.

(** ** C3: deleting what the caller does not own *)

Lemma delete_watchlist_item_absent (db : Session) (item_id user_id : Z) :
  (∀ r, r ∈ watchlist_items db →
        ¬ (models.WatchlistItem.id r = item_id
           ∧ models.WatchlistItem.owner_id r = user_id)) →
  crud.delete_watchlist_item db item_id user_id = (None, db).
Proof.
  intros H. unfold crud.delete_watchlist_item.
  by apply (first_filter_None _) in H as ->.
Qed.

Lemma delete_alert_absent (db : Session) (alert_id user_id : Z) :
  (∀ r, r ∈ alerts db →
        ¬ (models.Alert.id r = alert_id ∧ models.Alert.owner_id r = user_id)) →
  crud.delete_alert db alert_id user_id = (None, db).
Proof.
  intros H. unfold crud.delete_alert.
  by apply (first_filter_None _) in H as ->.
Qed.

(** C3.  For a caller and an id such that no watchlist item (respectively
    alert) has both that id and the caller as owner -- the id may be unused
    or belong to a row of another user -- the data-access delete returns
    [None] and the session it was given, and the handler answers 404 with
    the tables unchanged. *)
Theorem C3_delete_not_owned_is_not_found
    (db : Session) (current_user : models.User.t) (item_id alert_id : Z) :
  ((∀ r, r ∈ watchlist_items db →
         ¬ (models.WatchlistItem.id r = item_id
            ∧ models.WatchlistItem.owner_id r = models.User.id current_user)) →
   crud.delete_watchlist_item db item_id (models.User.id current_user) = (None, db)
   ∧ main.delete_from_watchlist item_id db current_user
     = (Raise (HTTPException 404 "Item not found in watchlist"), db))
  ∧
  ((∀ r, r ∈ alerts db →
         ¬ (models.Alert.id r = alert_id
            ∧ models.Alert.owner_id r = models.User.id current_user)) →
   crud.delete_alert db alert_id (models.User.id current_user) = (None, db)
   ∧ main.delete_alert alert_id db current_user
     = (Raise (HTTPException 404 "Alert not found"), db)).
Proof.
  split; intros H.
  - apply delete_watchlist_item_absent in H.
    split; [done|]. unfold main.delete_from_watchlist. by rewrite H.
  - apply delete_alert_absent in H.
    split; [done|]. unfold main.delete_alert. by rewrite H.
Qed.

(** The second user of the sample store tries to delete the item and the
    alert of the first: both ids exist, neither row is theirs. *)
Lemma C3_witness :
  (crud.delete_watchlist_item sample.db_ab 1 2 = (None, sample.db_ab)
   ∧ main.delete_from_watchlist 1 sample.db_ab sample.user_b
     = (Raise (HTTPException 404 "Item not found in watchlist"), sample.db_ab))
  ∧ (crud.delete_alert sample.db_ab 1 2 = (None, sample.db_ab)
     ∧ main.delete_alert 1 sample.db_ab sample.user_b
       = (Raise (HTTPException 404 "Alert not found"), sample.db_ab)).
Proof.
  destruct (C3_delete_not_owned_is_not_found sample.db_ab sample.user_b 1 1)
    as [Hitem Halert].
  split.
  - apply Hitem. intros r Hr [_ Hown].
    apply list_elem_of_singleton in Hr as ->. simpl in Hown. lia.
  - apply Halert. intros r Hr [_ Hown].
    apply list_elem_of_singleton in Hr as ->. simpl in Hown. lia.
Defined.

(** ** C4: the two ways a login fails *)

(** C4.  Whether no stored user has the email, or the user found under
    the email has a hash the password does not verify against,
    [authenticate_user] returns the one value [False]: a value and not an
    exception, and the same value in both cases. *)
Theorem C4_authenticate_failures_indistinguishable
    {pwd_context : CryptContext} (db : Session) (email password : string) :
  (email ∉ models.User.email <$> users db
   ∨ ∃ user, crud.get_user_by_email db email = Some user
             ∧ crud.verify_password password (models.User.hashed_password user)
               = false) →
  crud.authenticate_user db email password = crud.PyFalse.
Proof.
  unfold crud.authenticate_user. intros [Hunknown | (user & -> & ->)]; [|done].
  destruct (crud.get_user_by_email db email) as [user|] eqn:Hq; [|done].
  apply (first_filter_Some _) in Hq as [Hin <-].
  exfalso. apply Hunknown. by apply list_elem_of_fmap_2.
Qed.

(** A wrong password for the first user of the sample store. *)
Lemma C4_witness :
  crud.authenticate_user (pwd_context := sample.tagged) sample.db_ab
    "a@x.com" "wrongpassword" = crud.PyFalse.
Proof.
  apply (C4_authenticate_failures_indistinguishable (pwd_context := sample.tagged)).
  right. exists sample.user_a. split; reflexivity.
Defined.

(** ** C6 and C9: registration *)

Lemma get_user_by_email_fresh (db : Session) (email : string) :
  email ∉ models.User.email <$> users db →
  crud.get_user_by_email db email = None.
Proof.
  intros Hfresh. apply (first_filter_None _). intros r Hr Heq.
  apply Hfresh. rewrite <- Heq. by apply list_elem_of_fmap_2.
Qed.

Lemma get_user_by_email_taken (db : Session) (email : string) :
  email ∈ models.User.email <$> users db →
  ∃ user, crud.get_user_by_email db email = Some user.
Proof.
  intros Hin. destruct (crud.get_user_by_email db email) as [user|] eqn:Hq.
  - by exists user.
  - exfalso. apply list_elem_of_fmap in Hin as (r & -> & Hr).
    by apply (first_filter_None _) with (r := r) in Hq.
Qed.

Lemma get_user_by_email_app_fresh (db : Session) (rows : list models.User.t)
    (user : models.User.t) :
  models.User.email user ∉ models.User.email <$> rows →
  first (filter (λ u, models.User.email u = models.User.email user)
           (rows ++ [user])) = Some user.
Proof.
  intros Hfresh. rewrite filter_app.
  replace (filter _ rows) with (@nil models.User.t).
  - simpl. rewrite filter_cons. by destruct (decide _).
  - symmetry. apply (filter_absent _). intros r Hr Heq.
    apply Hfresh. rewrite <- Heq. by apply list_elem_of_fmap_2.
Qed.

(** C6.  Under the contract of the hashing primitive, every registration
    that creates a user stores a credential that differs from the
    submitted password and that the password verifies against; the row
    found afterwards under the registered email carries that credential,
    and logging in with the submitted password returns that row. *)
Theorem C6_stored_credential_is_verifying_hash
    {pwd_context : CryptContext} {laws : CryptContextLaws pwd_context}
    (salt : string) (db db' : Session) (user : schemas.UserCreate.t)
    (db_user : models.User.t) :
  crud.create_user salt db user = (Return db_user, db') →
  models.User.hashed_password db_user ≠ schemas.UserCreate.password user
  ∧ crud.verify_password (schemas.UserCreate.password user)
      (models.User.hashed_password db_user) = true
  ∧ crud.get_user_by_email db' (schemas.UserCreate.email user) = Some db_user
  ∧ crud.authenticate_user db' (schemas.UserCreate.email user)
      (schemas.UserCreate.password user) = crud.PyUser db_user.
Proof.
  unfold crud.create_user. destruct (decide _) as [|Hfresh]; [done|].
  intros [= <- <-]. simpl.
  assert (crud.get_user_by_email
            (mkSession
               (users db ++
                [models.User.mk (fresh_id (models.User.id <$> users db))
                   (schemas.UserCreate.email user)
                   (crud.get_password_hash salt (schemas.UserCreate.password user))
                   true None None])
               (watchlist_items db) (stock_notes db) (alerts db))
            (schemas.UserCreate.email user)
          = Some (models.User.mk (fresh_id (models.User.id <$> users db))
                    (schemas.UserCreate.email user)
                    (crud.get_password_hash salt (schemas.UserCreate.password user))
                    true None None)) as Hstored.
  { unfold crud.get_user_by_email. simpl.
    by apply (get_user_by_email_app_fresh db (users db)
                (models.User.mk _ (schemas.UserCreate.email user) _ true None None)). }
  split_and!.
  - apply hash_neq.
  - apply verify_hash.
  - done.
  - unfold crud.authenticate_user. rewrite Hstored. simpl.
    unfold crud.verify_password, crud.get_password_hash.
    by rewrite verify_hash.
Qed.

Lemma tagged_laws : CryptContextLaws sample.tagged.
Proof.
  split; simpl.
  - intros _ p. by apply bool_decide_eq_true.
  - intros _ p Heq. apply (f_equal String.length) in Heq.
    change (4 + String.length p = String.length p)%nat in Heq. lia.
Qed.

(** Registering a@x.com with password pw1 in the empty store. *)
Lemma C6_witness :
  "$2b$pw1" ≠ "pw1"
  ∧ crud.verify_password (pwd_context := sample.tagged) "pw1" "$2b$pw1" = true
  ∧ crud.get_user_by_email
      (mkSession [sample.user_a] [] [] []) "a@x.com" = Some sample.user_a
  ∧ crud.authenticate_user (pwd_context := sample.tagged)
      (mkSession [sample.user_a] [] [] []) "a@x.com" "pw1"
    = crud.PyUser sample.user_a.
Proof.
  apply (C6_stored_credential_is_verifying_hash
           (pwd_context := sample.tagged) (laws := tagged_laws)
           "salt" database.empty (mkSession [sample.user_a] [] [] [])
           (schemas.UserCreate.mk "a@x.com" "pw1") sample.user_a).
  reflexivity.
Defined.

(** C9.  Registering an email that a stored user already has fails with
    status 400 and leaves the store as it was; registering an email that
    is not stored appends one user row carrying that email and returns
    it. *)
Theorem C9_register_rejects_taken_email
    {pwd_context : CryptContext} (salt : string) (user : schemas.UserCreate.t)
    (db : Session) :
  (schemas.UserCreate.email user ∈ models.User.email <$> users db →
   main.create_user salt user db
   = (Raise (HTTPException 400 "Email already registered"), db))
  ∧
  (schemas.UserCreate.email user ∉ models.User.email <$> users db →
   ∃ db_user,
     main.create_user salt user db
     = (Return db_user,
        mkSession (users db ++ [db_user]) (watchlist_items db)
          (stock_notes db) (alerts db))
     ∧ models.User.email db_user = schemas.UserCreate.email user
     ∧ models.User.id db_user ∉ models.User.id <$> users db).
Proof.
  unfold main.create_user. split.
  - intros Htaken. by apply get_user_by_email_taken in Htaken as [u ->].
  - intros Hfresh. rewrite (get_user_by_email_fresh _ _ Hfresh).
    unfold crud.create_user. destruct (decide _) as [|_]; [done|].
    eexists. split_and!; [reflexivity | done |].
    simpl. unfold fresh_id. intros Hin.
    assert (∀ ids k, k ∈ ids → k ≤ foldr Z.max 0 ids) as Hmax.
    { clear. induction ids as [|i ids IH]; intros k Hk; [inversion Hk|].
      apply elem_of_cons in Hk as [->|Hk]; simpl; [lia|].
      specialize (IH k Hk). lia. }
    apply Hmax in Hin. lia.
Qed.

(** The sample store already holds a@x.com and does not hold c@x.com. *)
Lemma C9_witness :
  main.create_user (pwd_context := sample.tagged) "salt"
    (schemas.UserCreate.mk "a@x.com" "other") sample.db_ab
  = (Raise (HTTPException 400 "Email already registered"), sample.db_ab)
  ∧ ∃ db_user,
      main.create_user (pwd_context := sample.tagged) "salt"
        (schemas.UserCreate.mk "c@x.com" "pw3") sample.db_ab
      = (Return db_user,
         mkSession (users sample.db_ab ++ [db_user])
           (watchlist_items sample.db_ab) (stock_notes sample.db_ab)
           (alerts sample.db_ab))
      ∧ models.User.email db_user = "c@x.com"
      ∧ models.User.id db_user ∉ models.User.id <$> users sample.db_ab.
Proof.
  split.
  - apply (C9_register_rejects_taken_email (pwd_context := sample.tagged)
             "salt" (schemas.UserCreate.mk "a@x.com" "other") sample.db_ab).
    simpl. left.
  - apply (C9_register_rejects_taken_email (pwd_context := sample.tagged)
             "salt" (schemas.UserCreate.mk "c@x.com" "pw3") sample.db_ab).
    simpl. intros Hin.
    repeat (apply elem_of_cons in Hin as [Hin|Hin]; [discriminate Hin|]).
    inversion Hin.
Defined.

(** ** C8: the settings update and what it leaves alone *)

Lemma get_user_update_user_settings (db : Session) (user : models.User.t)
    (settings : schemas.UserUpdate.t) (user_id : Z) :
  crud.get_user (snd (crud.update_user_settings db user settings)) user_id
  = (λ r, if decide (models.User.id r = models.User.id user)
          then crud.apply_settings settings user else r)
    <$> crud.get_user db user_id.
Proof.
  unfold crud.get_user, crud.update_user_settings, first. simpl.
  induction (users db) as [|r rows IH]; [done|].
  rewrite fmap_cons, !filter_cons.
  destruct (decide (models.User.id r = models.User.id user)) as [Hr|Hr].
  - simpl. rewrite Hr. destruct (decide (models.User.id user = user_id)); [|done].
    simpl. by rewrite decide_True.
  - destruct (decide (models.User.id r = user_id)); [|done].
    simpl. by rewrite decide_False.
Qed.

(** C8.  The settings update returns the caller's user object with id,
    email, password hash and active flag as they were; a chat id or bot
    token sent as null keeps the value the object had, one sent with a
    value takes that value.  When the object is the row stored under its
    id, the row found under that id afterwards is the returned object; the
    rows found under every other id and the other three tables are as
    before. *)
Theorem C8_settings_update_applies_non_null_fields_only
    (db : Session) (current_user : models.User.t)
    (settings : schemas.UserUpdate.t) :
  let user' := fst (main.update_users_me_settings settings db current_user) in
  let db' := snd (main.update_users_me_settings settings db current_user) in
  (models.User.id user' = models.User.id current_user
   ∧ models.User.email user' = models.User.email current_user
   ∧ models.User.hashed_password user' = models.User.hashed_password current_user
   ∧ models.User.is_active user' = models.User.is_active current_user)
  ∧ (schemas.UserUpdate.telegram_chat_id settings = None →
     models.User.telegram_chat_id user'
     = models.User.telegram_chat_id current_user)
  ∧ (schemas.UserUpdate.telegram_bot_token settings = None →
     models.User.telegram_bot_token user'
     = models.User.telegram_bot_token current_user)
  ∧ (∀ v, schemas.UserUpdate.telegram_chat_id settings = Some v →
          models.User.telegram_chat_id user' = Some v)
  ∧ (∀ v, schemas.UserUpdate.telegram_bot_token settings = Some v →
          models.User.telegram_bot_token user' = Some v)
  ∧ (crud.get_user db (models.User.id current_user) = Some current_user →
     crud.get_user db' (models.User.id current_user) = Some user')
  ∧ (∀ user_id, user_id ≠ models.User.id current_user →
                crud.get_user db' user_id = crud.get_user db user_id)
  ∧ watchlist_items db' = watchlist_items db
  ∧ stock_notes db' = stock_notes db
  ∧ alerts db' = alerts db.
Proof.
  unfold main.update_users_me_settings. split_and!; try done.
  - intros Hnull. simpl. by rewrite Hnull.
  - intros Hnull. simpl. by rewrite Hnull.
  - intros v Hset. simpl. by rewrite Hset.
  - intros v Hset. simpl. by rewrite Hset.
  - intros Hstored. rewrite get_user_update_user_settings, Hstored. simpl.
    by rewrite decide_True.
  - intros user_id Hne. rewrite get_user_update_user_settings.
    destruct (crud.get_user db user_id) as [r|] eqn:Hq; [|done].
    apply (first_filter_Some _) in Hq as [_ Hid]. simpl.
    rewrite decide_False; [done | congruence].
Qed.

(** The second sample user, who has a chat id and no bot token, sends a
    bot token and a null chat id. *)
Lemma C8_witness :
  let settings := schemas.UserUpdate.mk None (Some "bot-token") in
  let user' := fst (main.update_users_me_settings settings sample.db_ab sample.user_b) in
  let db' := snd (main.update_users_me_settings settings sample.db_ab sample.user_b) in
  models.User.telegram_chat_id user' = Some "42"
  ∧ models.User.telegram_bot_token user' = Some "bot-token"
  ∧ crud.get_user db' 2 = Some user'
  ∧ crud.get_user db' 1 = Some sample.user_a.
Proof.
  intros settings user' db'.
  destruct (C8_settings_update_applies_non_null_fields_only
              sample.db_ab sample.user_b settings)
    as (_ & Hchat & _ & _ & Htoken & Hstored & Hothers & _).
  split_and!.
  - apply Hchat. reflexivity.
  - apply (Htoken "bot-token"). reflexivity.
  - apply Hstored. reflexivity.
  - etrans; [apply (Hothers 1); simpl; lia | reflexivity].
Defined.

(** ** C10: who owns a created row *)

Lemma get_stock_note_Some (db : Session) (user_id : Z) (symbol : string)
    (db_note : models.StockNote.t) :
  crud.get_stock_note db user_id symbol = Some db_note →
  db_note ∈ stock_notes db
  ∧ models.StockNote.owner_id db_note = user_id
  ∧ models.StockNote.symbol db_note = symbol.
Proof.
  intros Hq. by apply (first_filter_Some _) in Hq as [? [? ?]].
Qed.

Lemma set_note_owner_id (key : Z) (note_content : string) (r : models.StockNote.t) :
  models.StockNote.owner_id (crud.set_note key note_content r)
  = models.StockNote.owner_id r.
Proof. unfold crud.set_note. by destruct (decide _). Qed.

Lemma set_note_symbol (key : Z) (note_content : string) (r : models.StockNote.t) :
  models.StockNote.symbol (crud.set_note key note_content r)
  = models.StockNote.symbol r.
Proof. unfold crud.set_note. by destruct (decide _). Qed.

Lemma set_note_id (key : Z) (note_content : string) (r : models.StockNote.t) :
  models.StockNote.id (crud.set_note key note_content r) = models.StockNote.id r.
Proof. unfold crud.set_note. by destruct (decide _). Qed.

(** C10.  For every caller, store and payload, the row returned by the
    add-to-watchlist, create-alert and create-or-update-note handlers is
    stored in the table the handler leaves and has the caller's id as
    owner; the payload types carry no owner field, and every row the
    handler leaves in its table is that row, a row that was there before
    or, for a note, an earlier row with only its note text replaced. *)
Theorem C10_created_rows_are_owned_by_caller
    (db : Session) (current_user : models.User.t)
    (item : schemas.WatchlistItemCreate.t) (alert : schemas.AlertCreate.t)
    (note : schemas.StockNoteCreate.t) :
  (let r := main.add_to_watchlist item db current_user in
   models.WatchlistItem.owner_id (fst r) = models.User.id current_user
   ∧ watchlist_items (snd r) = watchlist_items db ++ [fst r])
  ∧ (let r := main.create_alert alert db current_user in
     models.Alert.owner_id (fst r) = models.User.id current_user
     ∧ alerts (snd r) = alerts db ++ [fst r])
  ∧ (let r := main.create_stock_note note db current_user in
     models.StockNote.owner_id (fst r) = models.User.id current_user
     ∧ fst r ∈ stock_notes (snd r)
     ∧ (models.StockNote.owner_id <$> stock_notes (snd r) =
        models.StockNote.owner_id <$> stock_notes db
        ∨ stock_notes (snd r) = stock_notes db ++ [fst r])).
Proof.
  cbv zeta. split_and!; try done.
  - unfold main.create_stock_note, crud.create_or_update_stock_note.
    destruct (crud.get_stock_note _ _ _) as [db_note|] eqn:Hq; [|done].
    apply get_stock_note_Some in Hq as (_ & Hown & _). simpl.
    by rewrite set_note_owner_id.
  - unfold main.create_stock_note, crud.create_or_update_stock_note.
    destruct (crud.get_stock_note _ _ _) as [db_note|] eqn:Hq; simpl.
    + apply get_stock_note_Some in Hq as (Hin & _ & _).
      by apply list_elem_of_fmap_2.
    + apply elem_of_app. right. left.
  - unfold main.create_stock_note, crud.create_or_update_stock_note.
    destruct (crud.get_stock_note _ _ _) as [db_note|] eqn:Hq; simpl.
    + left. rewrite <- list_fmap_compose. apply list_fmap_ext.
      intros i r _. simpl. apply set_note_owner_id.
    + by right.
Qed.

(** ** C2: the note upsert *)

Section upsert.
Variables (user_id : Z) (symbol : string).

Lemma notes_of_set_note (rows : list models.StockNote.t) (key : Z)
    (note_content : string) (users' : list models.User.t)
    (items : list models.WatchlistItem.t) (alerts' : list models.Alert.t) :
  history.notes_of
    (mkSession users' items (crud.set_note key note_content <$> rows) alerts')
    user_id symbol
  = crud.set_note key note_content
    <$> history.notes_of (mkSession users' items rows alerts') user_id symbol.
Proof.
  unfold history.notes_of. simpl.
  induction rows as [|r rows IH]; [done|].
  rewrite fmap_cons, !filter_cons, set_note_owner_id, set_note_symbol.
  destruct (decide _); [rewrite fmap_cons|]; by rewrite IH.
Qed.

Lemma get_stock_note_notes_of (db : Session) :
  crud.get_stock_note db user_id symbol
  = head (history.notes_of db user_id symbol).
Proof. done. Qed.

End upsert.

(** One upsert on a key that has at most one note leaves exactly one note
    for the key, the returned one, with the submitted text. *)
Lemma create_or_update_stock_note_single
    (db : Session) (user_id : Z) (symbol note_content : string) :
  (length (history.notes_of db user_id symbol) ≤ 1)%nat →
  history.notes_of
    (snd (crud.create_or_update_stock_note db user_id symbol note_content))
    user_id symbol
  = [fst (crud.create_or_update_stock_note db user_id symbol note_content)]
  ∧ models.StockNote.note
      (fst (crud.create_or_update_stock_note db user_id symbol note_content))
    = note_content.
Proof.
  intros Hle. unfold crud.create_or_update_stock_note.
  rewrite get_stock_note_notes_of.
  destruct (history.notes_of db user_id symbol) as [|n rest] eqn:Hnotes; simpl.
  - split; [|done]. unfold history.notes_of in *. simpl.
    rewrite filter_app, Hnotes, filter_cons. simpl. by rewrite decide_True.
  - destruct rest as [|? ?]; [|simpl in Hle; lia].
    destruct db as [us ws ns als]. simpl in *.
    rewrite notes_of_set_note, Hnotes. simpl.
    split; [done|]. unfold crud.set_note. by rewrite decide_True.
Qed.

(** An upsert changes the number of notes of no other key, and never
    raises the number of notes of its own key above one. *)
Lemma create_or_update_stock_note_unique
    (db : Session) (user_id : Z) (symbol note_content : string) :
  history.notes_unique db →
  history.notes_unique
    (snd (crud.create_or_update_stock_note db user_id symbol note_content)).
Proof.
  intros Huniq u s.
  destruct (decide (u = user_id ∧ s = symbol)) as [[-> ->]|Hother].
  { destruct (create_or_update_stock_note_single db user_id symbol note_content
                (Huniq user_id symbol)) as [-> _]. done. }
  unfold crud.create_or_update_stock_note.
  destruct (crud.get_stock_note db user_id symbol) as [n|]; simpl.
  - destruct db as [us ws ns als]. simpl.
    rewrite notes_of_set_note, length_fmap. apply Huniq.
  - unfold history.notes_of. simpl. rewrite filter_app, filter_cons. simpl.
    rewrite decide_False by (intros [? ?]; apply Hother; done).
    rewrite filter_nil, app_nil_r. apply Huniq.
Qed.

Lemma exec_notes_unique {pwd_context : CryptContext} (o : history.op)
    (db : Session) :
  history.notes_unique db → history.notes_unique (history.exec o db).
Proof.
  intros Huniq. destruct o; simpl.
  - unfold crud.create_user. by destruct (decide _).
  - done.
  - done.
  - unfold crud.delete_watchlist_item. by destruct (first _).
  - by apply create_or_update_stock_note_unique.
  - done.
  - unfold crud.delete_alert. by destruct (first _).
Qed.

(** Every store reached through the data-access layer holds at most one
    note per owner and symbol. *)
Lemma reachable_notes_unique {pwd_context : CryptContext} (db : Session) :
  history.reachable db → history.notes_unique db.
Proof.
  intros [ops ->]. unfold history.run.
  induction ops as [|o ops IH] using rev_ind.
  - intros u s. simpl. lia.
  - rewrite foldl_app. simpl. by apply exec_notes_unique.
Qed.

(** C2.  In every store reached through the data-access layer, two
    create-or-update calls for the same user and symbol leave exactly one
    note row for that user and symbol; it is the row the second call
    returns and the row a lookup finds, and its text is the text of the
    second call. *)
Theorem C2_upsert_twice_keeps_one_note_with_latest_content
    {pwd_context : CryptContext} (db : Session) (user_id : Z)
    (symbol note1 note2 : string) :
  history.reachable db →
  let db1 := snd (crud.create_or_update_stock_note db user_id symbol note1) in
  let r2 := crud.create_or_update_stock_note db1 user_id symbol note2 in
  history.notes_of (snd r2) user_id symbol = [fst r2]
  ∧ crud.get_stock_note (snd r2) user_id symbol = Some (fst r2)
  ∧ models.StockNote.note (fst r2) = note2.
Proof.
  intros Hreach db1 r2.
  pose proof (reachable_notes_unique db Hreach user_id symbol) as Hle.
  destruct (create_or_update_stock_note_single db user_id symbol note1 Hle)
    as [Hone _].
  assert (length (history.notes_of db1 user_id symbol) ≤ 1)%nat as Hle1.
  { unfold db1. rewrite Hone. done. }
  destruct (create_or_update_stock_note_single db1 user_id symbol note2 Hle1)
    as [Hone2 Hnote].
  split_and!; [done | | done].
  rewrite get_stock_note_notes_of. unfold r2. by rewrite Hone2.
Qed.

(** The scenario of the spec: user 1 notes "first" and then "second" on
    AAPL, in a store where user 2 already has a note on AAPL. *)
Lemma C2_witness :
  let db :=
    history.run (pwd_context := sample.tagged)
      [history.CreateOrUpdateStockNote 2 "AAPL" "other"] database.empty in
  let db1 := snd (crud.create_or_update_stock_note db 1 "AAPL" "first") in
  let r2 := crud.create_or_update_stock_note db1 1 "AAPL" "second" in
  history.notes_of (snd r2) 1 "AAPL" = [fst r2]
  ∧ crud.get_stock_note (snd r2) 1 "AAPL" = Some (fst r2)
  ∧ models.StockNote.note (fst r2) = "second".
Proof.
  intros db.
  apply (C2_upsert_twice_keeps_one_note_with_latest_content
           (pwd_context := sample.tagged) db 1 "AAPL" "first" "second").
  by exists [history.CreateOrUpdateStockNote 2 "AAPL" "other"].
Defined.

(** ** C5: resolving the bearer token *)

(** What the body of [get_current_user] does once the two names it reads
    are bound: a token the decoder rejects, a payload without subject and
    a subject that is no stored email all raise the 401 exception, and a
    subject that is a stored email returns that user. *)
Lemma get_current_user_in_bound {jose : Jose} (SECRET_KEY ALGORITHM : string)
    (globals : list string) (db : Session) (token : string) :
  "HTTPException" ∈ globals → "status" ∈ globals →
  let unauthorized : result models.User.t :=
    Raise (HTTPException 401 "Could not validate credentials") in
  (jwt_decode token SECRET_KEY [ALGORITHM] = Raise JWTError →
   crud.get_current_user_in SECRET_KEY ALGORITHM globals db token = unauthorized)
  ∧ (∀ claims, jwt_decode token SECRET_KEY [ALGORITHM] = Return claims →
       claims !! "sub" = None →
       crud.get_current_user_in SECRET_KEY ALGORITHM globals db token
       = unauthorized)
  ∧ (∀ claims email, jwt_decode token SECRET_KEY [ALGORITHM] = Return claims →
       claims !! "sub" = Some (JStr email) →
       crud.get_current_user_in SECRET_KEY ALGORITHM globals db token
       = match crud.get_user_by_email db email with
         | Some user => Return user
         | None => unauthorized
         end).
Proof.
  intros Hexc Hstatus unauthorized. unfold crud.get_current_user_in.
  unfold crud.load_global. rewrite !decide_True by done. simpl.
  split_and!.
  - by intros ->.
  - intros claims -> Hsub. simpl. by rewrite Hsub.
  - intros claims email -> Hsub. simpl. rewrite Hsub. simpl.
    by destruct (crud.get_user_by_email db email).
Qed.

(** C5, as the code runs.  Neither [HTTPException] nor [status] is bound
    in [crud.py] (the module imports them nowhere), so the first
    statement of [get_current_user] raises [NameError] for every token and
    every store: no user is returned and no 401 is raised, the caller sees
    a 500. *)
Theorem C5_get_current_user_raises_NameError
    {jose : Jose} (SECRET_KEY ALGORITHM : string) (db : Session)
    (token : string) :
  crud.get_current_user SECRET_KEY ALGORITHM db token
  = Raise (NameError "HTTPException")
  ∧ http_status (crud.get_current_user SECRET_KEY ALGORITHM db token) = 500.
Proof. done. Qed.

(** A token that decodes to the email of a stored user: with the two
    names bound the user is returned, in the module as written
    [NameError] is raised. *)
Example get_current_user_valid_token :
  crud.get_current_user_in (jose := sample.decoder) "secret" "HS256"
    ("HTTPException" :: "status" :: crud.module_globals) sample.db_ab "tok-a"
  = Return sample.user_a
  ∧ crud.get_current_user (jose := sample.decoder) "secret" "HS256"
      sample.db_ab "tok-a"
    = Raise (NameError "HTTPException").
Proof. split; reflexivity. Qed.

(** ** The fan-out *)

Section gather.
Import asyncio.
Context {A : Type}.

Lemma run_all_length (aws : list (aio A)) (sent : list httpx.request) :
  length (fst (run_all aws sent)) = length aws.
Proof.
  revert sent. induction aws as [|c aws IH]; intros sent; [done|].
  simpl. destruct (c sent) as [r sent1]. specialize (IH sent1).
  destruct (run_all aws sent1) as [rs sent2]. simpl in *. by rewrite IH.
Qed.

(** The exception [gather] propagates is the exception of one of the
    tasks. *)
Lemma first_raised_Some (order : list nat) (rs : list (result A)) (e : exn) :
  first_raised order rs = Some e → ∃ i, rs !! i = Some (Raise e).
Proof.
  induction order as [|i order IH]; simpl; [done|].
  destruct (rs !! i) as [[a|e']|] eqn:Hi; try done.
  intros [= ->]. by exists i.
Qed.

(** Whatever the completion order, a task that raised is found. *)
Lemma first_raised_complete (order : list nat) (rs : list (result A))
    (i : nat) (e : exn) :
  rs !! i = Some (Raise e) →
  is_Some (first_raised (order ++ seq 0 (length rs)) rs).
Proof.
  intros Hi.
  assert (i ∈ order ++ seq 0 (length rs)) as Hin.
  { apply elem_of_app. right. apply elem_of_seq.
    apply lookup_lt_Some in Hi. lia. }
  induction (order ++ seq 0 (length rs)) as [|j l IH]; [inversion Hin|].
  simpl. apply elem_of_cons in Hin as [<-|Hin].
  - by rewrite Hi.
  - destruct (rs !! j) as [[a|e']|]; by auto.
Qed.

Lemma first_raised_None (order : list nat) (vs : list A) :
  first_raised order (Return <$> vs) = None.
Proof.
  induction order as [|i order IH]; simpl; [done|].
  rewrite list_lookup_fmap. by destruct (vs !! i).
Qed.

Lemma omap_returned (vs : list A) : omap returned (Return <$> vs) = vs.
Proof. induction vs as [|v vs IH]; [done|]. simpl. f_equal. exact IH. Qed.

(** When every task returns, [gather] returns their values in argument
    order. *)
Lemma gather_all_returned (order : list nat) (aws : list (aio A))
    (sent : list httpx.request) (vs : list A) :
  fst (run_all aws sent) = Return <$> vs →
  gather order aws sent = (Return vs, snd (run_all aws sent)).
Proof.
  unfold gather. destruct (run_all aws sent) as [rs sent']. simpl.
  intros ->. by rewrite first_raised_None, omap_returned.
Qed.

(** When a task raises, [gather] raises the exception of a task. *)
Lemma gather_some_raised (order : list nat) (aws : list (aio A))
    (sent : list httpx.request) (i : nat) (e : exn) :
  fst (run_all aws sent) !! i = Some (Raise e) →
  ∃ j e', fst (run_all aws sent) !! j = Some (Raise e')
          ∧ gather order aws sent = (Raise e', snd (run_all aws sent)).
Proof.
  unfold gather. destruct (run_all aws sent) as [rs sent']. simpl.
  intros Hi. destruct (first_raised_complete order rs i e Hi) as [e' He'].
  rewrite He'. apply first_raised_Some in He' as [j Hj]. by exists j, e'.
Qed.

End gather.

(** ** C7: the market-data key is not set *)

Lemma _get_json_async_no_key (key : option string)
    (upstream : list httpx.request -> httpx.request -> httpx.reply)
    (params : gmap string httpx.param) (sent : list httpx.request) :
  alphavantage.not_ key = true →
  alphavantage._get_json_async key upstream params sent
  = (Raise (ValueError "ALPHA_VANTAGE_API_KEY environment variable not set."),
     sent).
Proof. unfold alphavantage._get_json_async. by intros ->. Qed.

(** C7.  With the key unset, each of the seven client operations raises
    the configuration [ValueError] and sends nothing: the request log is
    the one it was given, whatever the provider would have answered.  The
    search endpoint and the stock-detail endpoint answer 400 with that
    message, again without a request. *)
Theorem C7_unset_key_fails_before_any_request
    (upstream : list httpx.request -> httpx.request -> httpx.reply)
    (order : list nat) (sent : list httpx.request)
    (keywords symbol interval : string) (time_period : Z) :
  let msg := "ALPHA_VANTAGE_API_KEY environment variable not set." in
  let unset : result json * list httpx.request := (Raise (ValueError msg), sent) in
  (alphavantage.search_stock_async None upstream keywords sent = unset
   ∧ alphavantage.get_company_overview_async None upstream symbol sent = unset
   ∧ alphavantage.get_earnings_async None upstream symbol sent = unset
   ∧ alphavantage.get_daily_time_series_async None upstream symbol sent = unset
   ∧ alphavantage.get_rsi_async None upstream symbol interval time_period sent
     = unset
   ∧ alphavantage.get_bollinger_bands_async None upstream symbol interval
       time_period sent = unset
   ∧ alphavantage.get_news_sentiment_async None upstream symbol sent = unset)
  ∧ main.search_stock_endpoint None upstream keywords sent
    = (Raise (HTTPException 400 msg), sent)
  ∧ main.get_stock_details_endpoint None upstream order symbol sent
    = (Raise (HTTPException 400 msg), sent).
Proof.
  intros msg unset. split_and!; try done.
  unfold main.get_stock_details_endpoint, asyncio.try_except.
  destruct (gather_some_raised order (main.stock_detail_calls None upstream symbol)
              sent 0%nat (ValueError msg) eq_refl) as (j & e' & Hj & ->).
  simpl in *.
  do 6 (destruct j as [|j]; [injection Hj as <-; done|]).
  done.
Qed.

(** ** C1: the aggregated stock detail *)

Section stock_details.
Import httpx asyncio.
Variable key : option string.
Variable upstream : list request -> request -> reply.

(** With a key, a call sends exactly one request, whatever the answer. *)
Lemma _get_json_async_log (params : gmap string param) (sent : list request) :
  alphavantage.not_ key = false →
  snd (alphavantage._get_json_async key upstream params sent)
  = sent ++ [(alphavantage.BASE_URL, <["apikey" := PStr (default "" key)]> params)].
Proof.
  unfold alphavantage._get_json_async. intros ->.
  destruct (upstream _ _) as [msg|status_code [data|]]; [done| |];
    by destruct (is_success status_code).
Qed.

Lemma run_all_get_json_log (ps : list (gmap string param)) (sent : list request) :
  alphavantage.not_ key = false →
  snd (run_all (alphavantage._get_json_async key upstream <$> ps) sent)
  = sent ++ ((λ p, (alphavantage.BASE_URL,
                    <["apikey" := PStr (default "" key)]> p)) <$> ps).
Proof.
  intros Hkey. revert sent.
  induction ps as [|p ps IH]; intros sent; simpl; [by rewrite app_nil_r|].
  pose proof (_get_json_async_log p sent Hkey) as Hp.
  destruct (alphavantage._get_json_async key upstream p sent) as [r sent1].
  specialize (IH sent1).
  destruct (run_all _ sent1) as [rs sent2]. simpl in *. subst sent1.
  by rewrite IH, <- app_assoc.
Qed.

Lemma functions_of_app (l k : list request) :
  alphavantage.functions_of (l ++ k)
  = alphavantage.functions_of l ++ alphavantage.functions_of k.
Proof. unfold alphavantage.functions_of. apply omap_app. Qed.

Lemma get_stock_details_endpoint_log (order : list nat) (symbol : string)
    (sent : list request) :
  snd (main.get_stock_details_endpoint key upstream order symbol sent)
  = snd (run_all (main.stock_detail_calls key upstream symbol) sent).
Proof.
  unfold main.get_stock_details_endpoint, try_except, gather.
  destruct (run_all _ sent) as [rs sent'].
  destruct (first_raised _ rs); [done|].
  by destruct (main.stock_details _).
Qed.

End stock_details.

(** C1.  The stock-detail handler runs the six symbol-scoped client calls.
    With a key set it sends six requests, one per data kind, whether or
    not a call fails.  When all six calls return, the response is a dict
    with exactly the keys overview, earnings, daily_data, rsi, bbands and
    news_sentiment, each bound to the value of its call.  When a call
    raises, the response is an HTTP error and never a dict; when the calls
    that raise all raise a provider or network error, in particular when
    one call does and the other five return, the response is the 500 error,
    whatever the order in which the calls finish. *)
Theorem C1_stock_details_all_or_nothing
    (key : option string)
    (upstream : list httpx.request -> httpx.request -> httpx.reply)
    (order : list nat) (symbol : string) (sent : list httpx.request) :
  let outcomes :=
    fst (asyncio.run_all (main.stock_detail_calls key upstream symbol) sent) in
  let response :=
    fst (main.get_stock_details_endpoint key upstream order symbol sent) in
  let sent' :=
    snd (main.get_stock_details_endpoint key upstream order symbol sent) in
  length outcomes = 6%nat
  ∧ (alphavantage.not_ key = false →
     length sent' = (length sent + 6)%nat
     ∧ alphavantage.functions_of sent'
       = alphavantage.functions_of sent
         ++ (httpx.PStr <$> ["OVERVIEW"; "EARNINGS"; "TIME_SERIES_DAILY";
                             "RSI"; "BBANDS"; "NEWS_SENTIMENT"]))
  ∧ (∀ overview earnings daily_data rsi bbands news_sentiment,
       outcomes = [Return overview; Return earnings; Return daily_data;
                   Return rsi; Return bbands; Return news_sentiment] →
       ∃ details : gmap string json,
         response = Return details
         ∧ dom details = ({[ "overview"; "earnings"; "daily_data"; "rsi";
                             "bbands"; "news_sentiment" ]} : gset string)
         ∧ details !! "overview" = Some overview
         ∧ details !! "earnings" = Some earnings
         ∧ details !! "daily_data" = Some daily_data
         ∧ details !! "rsi" = Some rsi
         ∧ details !! "bbands" = Some bbands
         ∧ details !! "news_sentiment" = Some news_sentiment)
  ∧ ((∃ i e, outcomes !! i = Some (Raise e)) →
     ∃ code detail, response = Raise (HTTPException code detail))
  ∧ ((∃ i e, outcomes !! i = Some (Raise e)) →
     (∀ i e, outcomes !! i = Some (Raise e) → isinstance_HTTPError e = true) →
     response = Raise (HTTPException 500 "Error fetching stock details")).
Proof.
  intros outcomes response sent'. split_and!.
  - unfold outcomes. by rewrite run_all_length.
  - intros Hkey. unfold sent'. rewrite get_stock_details_endpoint_log.
    change (main.stock_detail_calls key upstream symbol)
      with (alphavantage._get_json_async key upstream
            <$> [ <["function" := httpx.PStr "OVERVIEW"]>
                    (<["symbol" := httpx.PStr symbol]> ∅);
                  <["function" := httpx.PStr "EARNINGS"]>
                    (<["symbol" := httpx.PStr symbol]> ∅);
                  <["function" := httpx.PStr "TIME_SERIES_DAILY"]>
                    (<["symbol" := httpx.PStr symbol]>
                       (<["outputsize" := httpx.PStr "compact"]> ∅));
                  <["function" := httpx.PStr "RSI"]>
                    (<["symbol" := httpx.PStr symbol]>
                       (<["interval" := httpx.PStr "daily"]>
                          (<["time_period" := httpx.PInt 14]>
                             (<["series_type" := httpx.PStr "close"]> ∅))));
                  <["function" := httpx.PStr "BBANDS"]>
                    (<["symbol" := httpx.PStr symbol]>
                       (<["interval" := httpx.PStr "daily"]>
                          (<["time_period" := httpx.PInt 20]>
                             (<["series_type" := httpx.PStr "close"]> ∅))));
                  <["function" := httpx.PStr "NEWS_SENTIMENT"]>
                    (<["tickers" := httpx.PStr symbol]> ∅) ]).
    rewrite run_all_get_json_log by done. split.
    + rewrite length_app. done.
    + rewrite functions_of_app. by f_equal.
  - intros overview earnings daily_data rsi bbands news_sentiment Hall.
    unfold response, main.get_stock_details_endpoint, asyncio.try_except.
    rewrite (gather_all_returned order _ sent
               [overview; earnings; daily_data; rsi; bbands; news_sentiment])
      by exact Hall.
    simpl. eexists. split; [reflexivity|]. split.
    + rewrite !dom_insert_L, dom_empty_L. set_solver.
    + by split_and!; simplify_map_eq.
  - intros (i & e & Hi).
    unfold response, main.get_stock_details_endpoint, asyncio.try_except.
    destruct (gather_some_raised order _ sent i e Hi) as (j & e' & _ & ->).
    simpl. destruct (isinstance_ValueError e'); by eauto.
  - intros (i & e & Hi) Hkind.
    unfold response, main.get_stock_details_endpoint, asyncio.try_except.
    destruct (gather_some_raised order _ sent i e Hi) as (j & e' & Hj & ->).
    simpl. apply Hkind in Hj. by destruct e'.
Qed.

(** The scenario of the spec: with a key set, the momentum-indicator call
    cannot reach the provider and finishes first, the other five calls
    would return; and the same request against a provider that answers
    all six. *)
Lemma C1_witness :
  fst (main.get_stock_details_endpoint (Some "demo") sample.up_rsi_down
         [3; 0; 1; 2; 4; 5]%nat "AAPL" [])
  = Raise (HTTPException 500 "Error fetching stock details")
  ∧ length (snd (main.get_stock_details_endpoint (Some "demo") sample.up_rsi_down
                   [3; 0; 1; 2; 4; 5]%nat "AAPL" [])) = 6%nat
  ∧ ∃ details : gmap string json,
      fst (main.get_stock_details_endpoint (Some "demo") sample.up_ok
             [5; 4; 3; 2; 1; 0]%nat "AAPL" [])
      = Return details
      ∧ details !! "rsi" = Some (JStr "data").
Proof.
  pose proof (C1_stock_details_all_or_nothing (Some "demo") sample.up_rsi_down
                [3; 0; 1; 2; 4; 5]%nat "AAPL" []) as Hdown.
  pose proof (C1_stock_details_all_or_nothing (Some "demo") sample.up_ok
                [5; 4; 3; 2; 1; 0]%nat "AAPL" []) as Hup.
  cbv zeta in Hdown, Hup.
  destruct Hdown as (_ & Hlog & _ & _ & H500).
  destruct Hup as (_ & _ & Hok & _).
  split_and!.
  - apply H500.
    + exists 3%nat, (RequestError "connection refused"). reflexivity.
    + intros i e Hi.
      do 6 (destruct i as [|i]; [vm_compute in Hi; by simplify_eq|]).
      vm_compute in Hi. discriminate Hi.
  - by apply Hlog.
  - destruct (Hok (JStr "data") (JStr "data") (JStr "data") (JStr "data")
                (JStr "data") (JStr "data") eq_refl)
      as (details & Hresp & _ & _ & _ & _ & Hrsi & _).
    by exists details.
Defined.

(** Outside the scenario of C1: two calls fail, one on the network and one
    on a body that does not decode.  The decoding error is a [ValueError],
    so the status depends on which of the two the event loop sees first;
    in both orders the response is an error and no partial dict. *)
Example stock_details_two_kinds_of_failure :
  fst (main.get_stock_details_endpoint (Some "demo")
         sample.up_rsi_down_overview_garbled [3; 0]%nat "AAPL" [])
  = Raise (HTTPException 500 "Error fetching stock details")
  ∧ fst (main.get_stock_details_endpoint (Some "demo")
           sample.up_rsi_down_overview_garbled [0; 3]%nat "AAPL" [])
    = Raise (HTTPException 400 "Expecting value").
Proof. split; reflexivity. Qed.

(** * Further properties of the data-access layer *)

(** ** Primary keys *)

Lemma fresh_id_fresh (ids : list Z) : fresh_id ids ∉ ids.
Proof.
  unfold fresh_id. intros Hin.
  assert (∀ k, k ∈ ids → k ≤ foldr Z.max 0 ids) as Hmax.
  { clear. induction ids as [|i ids IH]; intros k Hk; [inversion Hk|].
    apply elem_of_cons in Hk as [->|Hk]; simpl; [lia|].
    specialize (IH k Hk). lia. }
  apply Hmax in Hin. lia.
Qed.

Section tables.
Context {A : Type} (key : A -> Z).

Lemma NoDup_keys_insert (rows : list A) (r : A) :
  NoDup (key <$> rows) → key r = fresh_id (key <$> rows) →
  NoDup (key <$> rows ++ [r]).
Proof.
  intros Hnd Hkey. rewrite fmap_app. apply NoDup_app. split_and!; [done| |].
  - intros k Hk Hin. apply list_elem_of_singleton in Hin. subst k.
    rewrite Hkey in Hk. by apply fresh_id_fresh in Hk.
  - apply NoDup_singleton.
Qed.

Lemma NoDup_keys_filter (P : A -> Prop) `{!∀ x, Decision (P x)}
    (rows : list A) :
  NoDup (key <$> rows) → NoDup (key <$> filter P rows).
Proof.
  induction rows as [|r rows IH]; [done|].
  rewrite fmap_cons, filter_cons. intros [Hr Hnd]%NoDup_cons.
  destruct (decide (P r)); [|by apply IH].
  rewrite fmap_cons. apply NoDup_cons. split; [|by apply IH].
  intros Hin. apply Hr.
  apply list_elem_of_fmap in Hin as (x & -> & Hx).
  apply list_elem_of_filter in Hx as [_ Hx]. by apply list_elem_of_fmap_2.
Qed.

Lemma filter_all (P : A -> Prop) `{!∀ x, Decision (P x)} (rows : list A) :
  (∀ r, r ∈ rows → P r) → filter P rows = rows.
Proof.
  induction rows as [|r rows IH]; [done|]. intros Hall.
  rewrite filter_cons, decide_True by (apply Hall; left).
  f_equal. apply IH. intros x Hx. apply Hall. by right.
Qed.

(** With unique keys, removing the rows that carry the key of a stored
    row removes that row and no other. *)
Lemma delete_by_key (rows : list A) (row : A) :
  NoDup (key <$> rows) → row ∈ rows →
  ∃ l1 l2, rows = l1 ++ row :: l2
           ∧ filter (λ r, key r ≠ key row) rows = l1 ++ l2.
Proof.
  intros Hnd Hin. apply list_elem_of_split in Hin as (l1 & l2 & ->).
  exists l1, l2. split; [done|].
  rewrite fmap_app, fmap_cons in Hnd.
  apply NoDup_app in Hnd as (_ & Hl1 & [Hl2 _]%NoDup_cons).
  rewrite filter_app, filter_cons, decide_False by (intros Hne; by apply Hne).
  rewrite !filter_all; [done| |].
  - intros r Hr Heq. apply Hl2. rewrite <- Heq. by apply list_elem_of_fmap_2.
  - intros r Hr Heq. apply (Hl1 (key r)); [by apply list_elem_of_fmap_2|].
    rewrite Heq. left.
Qed.

End tables.

Lemma set_note_keys (key : Z) (note_content : string)
    (rows : list models.StockNote.t) :
  models.StockNote.id <$> (crud.set_note key note_content <$> rows)
  = models.StockNote.id <$> rows.
Proof.
  rewrite <- list_fmap_compose. apply list_fmap_ext. intros i r _. simpl.
  apply set_note_id.
Qed.

Lemma update_user_settings_keys (db : Session) (user : models.User.t)
    (settings : schemas.UserUpdate.t) :
  models.User.id <$> users (snd (crud.update_user_settings db user settings))
  = models.User.id <$> users db.
Proof.
  simpl. rewrite <- list_fmap_compose. apply list_fmap_ext. intros i r _.
  simpl. by destruct (decide _).
Qed.

Lemma exec_ids_unique {pwd_context : CryptContext} (o : history.op)
    (db : Session) :
  history.ids_unique db → history.ids_unique (history.exec o db).
Proof.
  intros (Hu & Hw & Hn & Ha).
  destruct o; unfold history.exec, history.ids_unique; cbv beta iota.
  - unfold crud.create_user. destruct (decide _); [done|].
    split_and!; try done. simpl. by apply NoDup_keys_insert.
  - rewrite update_user_settings_keys. by split_and!.
  - split_and!; try done. simpl. by apply NoDup_keys_insert.
  - unfold crud.delete_watchlist_item. destruct (first _); [|done].
    split_and!; try done. simpl. by apply NoDup_keys_filter.
  - unfold crud.create_or_update_stock_note.
    destruct (crud.get_stock_note _ _ _); split_and!; try done; simpl.
    + by rewrite set_note_keys.
    + by apply NoDup_keys_insert.
  - split_and!; try done. simpl. by apply NoDup_keys_insert.
  - unfold crud.delete_alert. destruct (first _); [|done].
    split_and!; try done. simpl. by apply NoDup_keys_filter.
Qed.

(** X1.  In every store reached from the empty store through the
    data-access operations, no two rows of a table share a primary key:
    inserts take a key above every key in use, updates keep keys, deletes
    only remove rows. *)
Theorem X1_reachable_ids_unique {pwd_context : CryptContext} (db : Session) :
  history.reachable db → history.ids_unique db.
Proof.
  intros [ops ->]. unfold history.run.
  induction ops as [|o ops IH] using rev_ind.
  - repeat split; apply NoDup_nil_2.
  - rewrite foldl_app. simpl. by apply exec_ids_unique.
Qed.

(** Two users, two items and a deletion in between. *)
Lemma X1_witness :
  history.ids_unique
    (history.run (pwd_context := sample.tagged)
       [ history.CreateUser "s" (schemas.UserCreate.mk "a@x.com" "pw1");
         history.CreateWatchlistItem
           (schemas.WatchlistItemCreate.mk "AAPL" "Apple Inc.") 1;
         history.CreateWatchlistItem
           (schemas.WatchlistItemCreate.mk "GOOG" "Alphabet Inc.") 1;
         history.DeleteWatchlistItem 1 1;
         history.CreateWatchlistItem
           (schemas.WatchlistItemCreate.mk "MSFT" "Microsoft") 1 ]
       database.empty).
Proof.
  apply (X1_reachable_ids_unique (pwd_context := sample.tagged)).
  by eexists.
Defined.

(** ** Deleting an owned row *)

Section lookup_by_key.
Context {A : Type} (key : A -> Z).

Lemma NoDup_keys_inj (rows : list A) (x y : A) :
  NoDup (key <$> rows) → x ∈ rows → y ∈ rows → key x = key y → x = y.
Proof.
  induction rows as [|r rows IH]; [by inversion 2|].
  rewrite fmap_cons. intros [Hr Hnd]%NoDup_cons Hx Hy Hkey.
  apply elem_of_cons in Hx as [->|Hx]; apply elem_of_cons in Hy as [->|Hy].
  - done.
  - exfalso. apply Hr. rewrite Hkey. by apply list_elem_of_fmap_2.
  - exfalso. apply Hr. rewrite <- Hkey. by apply list_elem_of_fmap_2.
  - by apply IH.
Qed.

(** With unique keys, a selection that fixes the key finds the one row
    that carries it. *)
Lemma first_by_key (P : A -> Prop) `{!∀ x, Decision (P x)} (rows : list A)
    (row : A) :
  NoDup (key <$> rows) → row ∈ rows → P row →
  (∀ r, P r → key r = key row) →
  first (filter P rows) = Some row.
Proof.
  intros Hnd Hin HP Hkey.
  destruct (first (filter P rows)) as [found|] eqn:Hq.
  - apply (first_filter_Some _) in Hq as [Hfound HPf].
    f_equal. apply (NoDup_keys_inj rows); auto.
  - exfalso. by apply (proj1 (first_filter_None _ _) Hq row Hin).
Qed.

End lookup_by_key.

Lemma delete_watchlist_item_owned (db : Session) (item_id user_id : Z)
    (row : models.WatchlistItem.t) :
  NoDup (models.WatchlistItem.id <$> watchlist_items db) →
  row ∈ watchlist_items db →
  models.WatchlistItem.id row = item_id →
  models.WatchlistItem.owner_id row = user_id →
  crud.delete_watchlist_item db item_id user_id
  = (Some row,
     mkSession (users db)
       (filter (λ r, models.WatchlistItem.id r ≠ models.WatchlistItem.id row)
          (watchlist_items db))
       (stock_notes db) (alerts db)).
Proof.
  intros Hnd Hin Hid Hown. unfold crud.delete_watchlist_item.
  rewrite (first_by_key models.WatchlistItem.id _ _ row) by
    (try done; intros r [Hr _]; congruence).
  done.
Qed.

Lemma delete_alert_owned (db : Session) (alert_id user_id : Z)
    (row : models.Alert.t) :
  NoDup (models.Alert.id <$> alerts db) →
  row ∈ alerts db →
  models.Alert.id row = alert_id →
  models.Alert.owner_id row = user_id →
  crud.delete_alert db alert_id user_id
  = (Some row,
     mkSession (users db) (watchlist_items db) (stock_notes db)
       (filter (λ r, models.Alert.id r ≠ models.Alert.id row) (alerts db))).
Proof.
  intros Hnd Hin Hid Hown. unfold crud.delete_alert.
  rewrite (first_by_key models.Alert.id _ _ row) by
    (try done; intros r [Hr _]; congruence).
  done.
Qed.

(** X2.  When the watchlist holds unique keys and the caller owns an item
    with the given id, the handler answers with the success message and
    the table loses exactly that item: every other row stays, in order.
    The lists of all other users are unchanged, the other tables are
    untouched, and a second delete of the same id is answered 404. *)
Theorem X2_delete_watchlist_item_removes_exactly_that_row
    (db : Session) (current_user : models.User.t) (item_id : Z)
    (row : models.WatchlistItem.t) :
  NoDup (models.WatchlistItem.id <$> watchlist_items db) →
  row ∈ watchlist_items db →
  models.WatchlistItem.id row = item_id →
  models.WatchlistItem.owner_id row = models.User.id current_user →
  let db' := snd (main.delete_from_watchlist item_id db current_user) in
  fst (main.delete_from_watchlist item_id db current_user)
  = Return {[ "message" := JStr "Item deleted successfully" ]}
  ∧ fst (crud.delete_watchlist_item db item_id (models.User.id current_user))
    = Some row
  ∧ (∃ l1 l2, watchlist_items db = l1 ++ row :: l2
              ∧ watchlist_items db' = l1 ++ l2)
  ∧ (∀ user_id, user_id ≠ models.User.id current_user →
       crud.get_watchlist_items db' user_id = crud.get_watchlist_items db user_id)
  ∧ (users db' = users db ∧ stock_notes db' = stock_notes db
     ∧ alerts db' = alerts db)
  ∧ fst (main.delete_from_watchlist item_id db' current_user)
    = Raise (HTTPException 404 "Item not found in watchlist").
Proof.
  intros Hnd Hin Hid Hown. cbv zeta. unfold main.delete_from_watchlist.
  rewrite (delete_watchlist_item_owned db item_id _ row Hnd Hin Hid Hown).
  destruct (delete_by_key models.WatchlistItem.id _ row Hnd Hin)
    as (l1 & l2 & Hsplit & Hdel).
  cbn [fst snd]. split_and!; try done.
  - exists l1, l2. by rewrite <- Hdel.
  - intros user_id Hne. unfold crud.get_watchlist_items. cbn [watchlist_items].
    rewrite Hdel, Hsplit, !filter_app, filter_cons.
    rewrite decide_False; [done | congruence].
  - rewrite delete_watchlist_item_absent; [done|].
    cbn [watchlist_items]. intros r Hr [Hrid _].
    apply list_elem_of_filter in Hr as [Hne _]. congruence.
Qed.

(** The first sample user deletes their item from the sample store. *)
Lemma X2_witness :
  fst (main.delete_from_watchlist 1 sample.db_ab sample.user_a)
  = Return {[ "message" := JStr "Item deleted successfully" ]}
  ∧ fst (main.delete_from_watchlist 1
           (snd (main.delete_from_watchlist 1 sample.db_ab sample.user_a))
           sample.user_a)
    = Raise (HTTPException 404 "Item not found in watchlist").
Proof.
  destruct (X2_delete_watchlist_item_removes_exactly_that_row
              sample.db_ab sample.user_a 1 sample.aapl_item)
    as (Hresp & _ & _ & _ & _ & Hagain).
  - simpl. apply NoDup_singleton.
  - simpl. left.
  - reflexivity.
  - reflexivity.
  - split; [exact Hresp | exact Hagain].
Defined.

(** X3.  When the alerts hold unique keys and the caller owns an alert
    with the given id, the handler answers with the success message and
    the table loses exactly that alert; the alerts of all other users are
    unchanged, the other tables are untouched, and a second delete of the
    same id is answered 404. *)
Theorem X3_delete_alert_removes_exactly_that_row
    (db : Session) (current_user : models.User.t) (alert_id : Z)
    (row : models.Alert.t) :
  NoDup (models.Alert.id <$> alerts db) →
  row ∈ alerts db →
  models.Alert.id row = alert_id →
  models.Alert.owner_id row = models.User.id current_user →
  let db' := snd (main.delete_alert alert_id db current_user) in
  fst (main.delete_alert alert_id db current_user)
  = Return {[ "message" := JStr "Alert deleted successfully" ]}
  ∧ fst (crud.delete_alert db alert_id (models.User.id current_user)) = Some row
  ∧ (∃ l1 l2, alerts db = l1 ++ row :: l2 ∧ alerts db' = l1 ++ l2)
  ∧ (∀ user_id, user_id ≠ models.User.id current_user →
       crud.get_alerts db' user_id = crud.get_alerts db user_id)
  ∧ (users db' = users db ∧ watchlist_items db' = watchlist_items db
     ∧ stock_notes db' = stock_notes db)
  ∧ fst (main.delete_alert alert_id db' current_user)
    = Raise (HTTPException 404 "Alert not found").
Proof.
  intros Hnd Hin Hid Hown. cbv zeta. unfold main.delete_alert.
  rewrite (delete_alert_owned db alert_id _ row Hnd Hin Hid Hown).
  destruct (delete_by_key models.Alert.id _ row Hnd Hin)
    as (l1 & l2 & Hsplit & Hdel).
  cbn [fst snd]. split_and!; try done.
  - exists l1, l2. by rewrite <- Hdel.
  - intros user_id Hne. unfold crud.get_alerts. cbn [alerts].
    rewrite Hdel, Hsplit, !filter_app, filter_cons.
    rewrite decide_False; [done | congruence].
  - rewrite delete_alert_absent; [done|].
    cbn [alerts]. intros r Hr [Hrid _].
    apply list_elem_of_filter in Hr as [Hne _]. congruence.
Qed.

(** The first sample user deletes their alert from the sample store. *)
Lemma X3_witness :
  fst (main.delete_alert 1 sample.db_ab sample.user_a)
  = Return {[ "message" := JStr "Alert deleted successfully" ]}
  ∧ fst (main.delete_alert 1
           (snd (main.delete_alert 1 sample.db_ab sample.user_a)) sample.user_a)
    = Raise (HTTPException 404 "Alert not found").
Proof.
  destruct (X3_delete_alert_removes_exactly_that_row
              sample.db_ab sample.user_a 1 sample.aapl_alert)
    as (Hresp & _ & _ & _ & _ & Hagain).
  - simpl. apply NoDup_singleton.
  - simpl. left.
  - reflexivity.
  - reflexivity.
  - split; [exact Hresp | exact Hagain].
Defined.

(** ** Notes of other keys *)

(** X4.  With unique note keys, a create-or-update for one owner and
    symbol changes no note of any other owner or symbol: the rows stored
    for the other key and the note a lookup finds for it are as before,
    and the other three tables are untouched. *)
Theorem X4_upsert_leaves_other_notes_alone
    (db : Session) (user_id : Z) (symbol note_content : string)
    (user_id' : Z) (symbol' : string) :
  NoDup (models.StockNote.id <$> stock_notes db) →
  ¬ (user_id' = user_id ∧ symbol' = symbol) →
  let db' := snd (crud.create_or_update_stock_note db user_id symbol note_content) in
  history.notes_of db' user_id' symbol' = history.notes_of db user_id' symbol'
  ∧ crud.get_stock_note db' user_id' symbol' = crud.get_stock_note db user_id' symbol'
  ∧ users db' = users db
  ∧ watchlist_items db' = watchlist_items db
  ∧ alerts db' = alerts db.
Proof.
  intros Hnd Hother db'.
  assert (history.notes_of db' user_id' symbol'
          = history.notes_of db user_id' symbol') as Hsame.
  { unfold db', crud.create_or_update_stock_note.
    destruct (crud.get_stock_note db user_id symbol) as [n|] eqn:Hq;
      cbn [snd].
    - apply get_stock_note_Some in Hq as (Hn & Hown & Hsym).
      destruct db as [us ws ns als]. cbn [stock_notes] in *.
      rewrite notes_of_set_note.
      etrans; [|apply list_fmap_id].
      apply list_fmap_ext. intros i r Hr. unfold id.
      apply list_elem_of_lookup_2, list_elem_of_filter in Hr as [[Hro Hrs] Hr].
      unfold crud.set_note. rewrite decide_False; [done|].
      intros Hid. apply Hother.
      assert (r = n) as -> by (apply (NoDup_keys_inj models.StockNote.id ns); auto).
      split; congruence.
    - unfold history.notes_of. cbn [stock_notes].
      rewrite filter_app, filter_cons. cbn [models.StockNote.owner_id
        models.StockNote.symbol].
      rewrite decide_False by (intros [? ?]; by apply Hother).
      by rewrite filter_nil, app_nil_r. }
  split_and!; [done | by rewrite !get_stock_note_notes_of, Hsame | | |];
    unfold db', crud.create_or_update_stock_note;
    by destruct (crud.get_stock_note db user_id symbol).
Qed.

(** User 1 rewrites their AAPL note; the AAPL note of user 2 and the GOOG
    note of user 1 stay. *)
Lemma X4_witness :
  let db :=
    mkSession [] []
      [ models.StockNote.mk 1 "AAPL" "mine" 1;
        models.StockNote.mk 2 "AAPL" "theirs" 2;
        models.StockNote.mk 3 "GOOG" "mine too" 1 ] [] in
  let db' := snd (crud.create_or_update_stock_note db 1 "AAPL" "rewritten") in
  crud.get_stock_note db' 2 "AAPL" = Some (models.StockNote.mk 2 "AAPL" "theirs" 2)
  ∧ crud.get_stock_note db' 1 "GOOG"
    = Some (models.StockNote.mk 3 "GOOG" "mine too" 1).
Proof.
  intros db db'. split.
  - destruct (X4_upsert_leaves_other_notes_alone db 1 "AAPL" "rewritten" 2 "AAPL")
      as (_ & Hget & _).
    + compute_done.
    + intros [Hu _]. lia.
    + exact Hget.
  - destruct (X4_upsert_leaves_other_notes_alone db 1 "AAPL" "rewritten" 1 "GOOG")
      as (_ & Hget & _).
    + compute_done.
    + intros [_ Hs]. discriminate Hs.
    + exact Hget.
Defined.

(** ** Creating and listing *)

(** X5.  After add-to-watchlist the caller's list is the former list
    followed by the new item, which carries the symbol and company name of
    the payload under a key no stored item had; the list of every other
    user and the other three tables are as before.  Nothing is
    deduplicated: the list grows by one on every call. *)
Theorem X5_add_to_watchlist_appends_to_callers_list
    (db : Session) (current_user : models.User.t)
    (item : schemas.WatchlistItemCreate.t) :
  let db_item := fst (main.add_to_watchlist item db current_user) in
  let db' := snd (main.add_to_watchlist item db current_user) in
  main.get_watchlist db' current_user
  = (main.get_watchlist db current_user ++ [db_item])
  ∧ (∀ other, models.User.id other ≠ models.User.id current_user →
       main.get_watchlist db' other = main.get_watchlist db other)
  ∧ models.WatchlistItem.symbol db_item = schemas.WatchlistItemCreate.symbol item
  ∧ models.WatchlistItem.company_name db_item
    = schemas.WatchlistItemCreate.company_name item
  ∧ (models.WatchlistItem.id db_item
     ∉ models.WatchlistItem.id <$> watchlist_items db)
  ∧ users db' = users db ∧ stock_notes db' = stock_notes db
  ∧ alerts db' = alerts db.
Proof.
  cbv zeta. unfold main.add_to_watchlist, main.get_watchlist,
    crud.create_watchlist_item, crud.get_watchlist_items.
  cbn [fst snd watchlist_items]. split_and!; try done.
  - rewrite filter_app, filter_cons. cbn [models.WatchlistItem.owner_id].
    by rewrite decide_True.
  - intros other Hne. rewrite filter_app, filter_cons.
    cbn [models.WatchlistItem.owner_id].
    rewrite decide_False by congruence. by rewrite filter_nil, app_nil_r.
  - apply fresh_id_fresh.
Qed.

(** X6.  After create-alert the caller's alerts are the former alerts
    followed by the new one, which carries symbol, type, threshold and
    active flag of the payload under a key no stored alert had; the alerts
    of every other user and the other three tables are as before. *)
Theorem X6_create_alert_appends_to_callers_alerts
    (db : Session) (current_user : models.User.t)
    (alert : schemas.AlertCreate.t) :
  let db_alert := fst (main.create_alert alert db current_user) in
  let db' := snd (main.create_alert alert db current_user) in
  main.get_alerts db' current_user
  = (main.get_alerts db current_user ++ [db_alert])
  ∧ (∀ other, models.User.id other ≠ models.User.id current_user →
       main.get_alerts db' other = main.get_alerts db other)
  ∧ models.Alert.symbol db_alert = schemas.AlertCreate.symbol alert
  ∧ models.Alert.alert_type db_alert = schemas.AlertCreate.alert_type alert
  ∧ models.Alert.threshold db_alert = schemas.AlertCreate.threshold alert
  ∧ models.Alert.is_active db_alert = schemas.AlertCreate.is_active alert
  ∧ (models.Alert.id db_alert ∉ models.Alert.id <$> alerts db)
  ∧ users db' = users db ∧ watchlist_items db' = watchlist_items db
  ∧ stock_notes db' = stock_notes db.
Proof.
  cbv zeta. unfold main.create_alert, main.get_alerts, crud.create_alert,
    crud.get_alerts.
  cbn [fst snd alerts]. split_and!; try done.
  - rewrite filter_app, filter_cons. cbn [models.Alert.owner_id].
    by rewrite decide_True.
  - intros other Hne. rewrite filter_app, filter_cons.
    cbn [models.Alert.owner_id].
    rewrite decide_False by congruence. by rewrite filter_nil, app_nil_r.
  - apply fresh_id_fresh.
Qed.

(** ** Users *)

Lemma create_user_Return {pwd_context : CryptContext} (salt : string)
    (db db' : Session) (user : schemas.UserCreate.t) (db_user : models.User.t) :
  crud.create_user salt db user = (Return db_user, db') →
  (schemas.UserCreate.email user ∉ models.User.email <$> users db)
  ∧ db_user = models.User.mk (fresh_id (models.User.id <$> users db))
                (schemas.UserCreate.email user)
                (hash salt (schemas.UserCreate.password user)) true None None
  ∧ db' = mkSession (users db ++ [db_user]) (watchlist_items db)
            (stock_notes db) (alerts db).
Proof.
  unfold crud.create_user. destruct (decide _) as [|Hfresh]; [done|].
  by intros [= <- <-].
Qed.

Lemma main_create_user_Return {pwd_context : CryptContext} (salt : string)
    (db db' : Session) (user : schemas.UserCreate.t) (db_user : models.User.t) :
  main.create_user salt user db = (Return db_user, db') →
  crud.create_user salt db user = (Return db_user, db').
Proof.
  unfold main.create_user.
  by destruct (crud.get_user_by_email db (schemas.UserCreate.email user)).
Qed.

(** X7.  A user created by the registration handler is active, has no
    chat id and no bot token, and is the user the read-by-id handler
    returns for the new id; every other id reads as before, and an id
    that no stored user has is answered 404. *)
Theorem X7_registered_user_is_read_back
    {pwd_context : CryptContext} (salt : string) (db db' : Session)
    (user : schemas.UserCreate.t) (db_user : models.User.t) :
  main.create_user salt user db = (Return db_user, db') →
  main.read_user (models.User.id db_user) db' = Return db_user
  ∧ (∀ user_id, user_id ≠ models.User.id db_user →
       main.read_user user_id db' = main.read_user user_id db)
  ∧ (∀ user_id, user_id ∉ models.User.id <$> users db' →
       main.read_user user_id db' = Raise (HTTPException 404 "User not found"))
  ∧ models.User.is_active db_user = true
  ∧ models.User.telegram_chat_id db_user = None
  ∧ models.User.telegram_bot_token db_user = None.
Proof.
  intros Hcreate%main_create_user_Return%create_user_Return.
  destruct Hcreate as (_ & Huser & ->).
  unfold main.read_user, crud.get_user. cbn [users]. split_and!.
  - rewrite filter_app, filter_cons, decide_True by done.
    rewrite (filter_absent _ (users db)); [done|].
    intros r Hr Hid. apply (fresh_id_fresh (models.User.id <$> users db)).
    rewrite Huser in Hid. cbn in Hid. rewrite <- Hid.
    by apply list_elem_of_fmap_2.
  - intros user_id Hne. rewrite filter_app, filter_cons.
    rewrite decide_False by congruence. by rewrite filter_nil, app_nil_r.
  - intros user_id Habsent.
    rewrite (filter_absent _ (users db ++ [db_user])); [done|].
    intros r Hr Hid. apply Habsent. rewrite <- Hid.
    by apply list_elem_of_fmap_2.
  - by rewrite Huser.
  - by rewrite Huser.
  - by rewrite Huser.
Qed.

(** Registering c@x.com in the sample store: the new user gets id 3. *)
Lemma X7_witness :
  main.read_user 3
    (snd (main.create_user (pwd_context := sample.tagged) "salt"
            (schemas.UserCreate.mk "c@x.com" "pw3") sample.db_ab))
  = Return (models.User.mk 3 "c@x.com" "$2b$pw3" true None None).
Proof.
  apply (X7_registered_user_is_read_back (pwd_context := sample.tagged)
           "salt" sample.db_ab _ (schemas.UserCreate.mk "c@x.com" "pw3")
           (models.User.mk 3 "c@x.com" "$2b$pw3" true None None)).
  reflexivity.
Defined.

(** X8.  Registration keeps emails pairwise distinct, through the handler
    and through the data-access function alike, and the handler never
    lets the storage error of a duplicate email escape: it answers 400
    before the insert is tried. *)
Theorem X8_registration_keeps_emails_unique
    {pwd_context : CryptContext} (salt : string) (db : Session)
    (user : schemas.UserCreate.t) :
  history.emails_unique db →
  history.emails_unique (snd (main.create_user salt user db))
  ∧ history.emails_unique (snd (crud.create_user salt db user))
  ∧ fst (main.create_user salt user db) ≠ Raise IntegrityError.
Proof.
  intros Hnd.
  assert (history.emails_unique (snd (crud.create_user salt db user))) as Hcrud.
  { unfold crud.create_user. destruct (decide _) as [|Hfresh]; [done|].
    unfold history.emails_unique. cbn [snd users].
    rewrite fmap_app. apply NoDup_app. split_and!; [done| |apply NoDup_singleton].
    intros e He Hin. apply list_elem_of_singleton in Hin. by subst e. }
  split_and!; [|done|].
  - unfold main.create_user.
    by destruct (crud.get_user_by_email db (schemas.UserCreate.email user)).
  - unfold main.create_user.
    destruct (crud.get_user_by_email db (schemas.UserCreate.email user))
      as [u|] eqn:Hq; [done|].
    unfold crud.create_user. destruct (decide _) as [Htaken|]; [|done].
    apply get_user_by_email_taken in Htaken as [u Hu]. congruence.
Qed.

(** The sample store has distinct emails; so has it after a@x.com is
    registered again (refused) and after c@x.com is registered. *)
Lemma X8_witness :
  history.emails_unique
    (snd (main.create_user (pwd_context := sample.tagged) "salt"
            (schemas.UserCreate.mk "a@x.com" "other") sample.db_ab))
  ∧ history.emails_unique
      (snd (main.create_user (pwd_context := sample.tagged) "salt"
              (schemas.UserCreate.mk "c@x.com" "pw3") sample.db_ab)).
Proof.
  split.
  - apply (X8_registration_keeps_emails_unique (pwd_context := sample.tagged)).
    compute_done.
  - apply (X8_registration_keeps_emails_unique (pwd_context := sample.tagged)).
    compute_done.
Defined.

(** ** Settings, applied twice *)

Lemma apply_settings_idemp (settings : schemas.UserUpdate.t) (u : models.User.t) :
  crud.apply_settings settings (crud.apply_settings settings u)
  = crud.apply_settings settings u.
Proof.
  unfold crud.apply_settings. cbn.
  by destruct (schemas.UserUpdate.telegram_chat_id settings),
       (schemas.UserUpdate.telegram_bot_token settings).
Qed.

(** X9.  The settings update is idempotent: sending the same settings
    again for the returned user returns the same user and leaves the
    store exactly as the first update left it. *)
Theorem X9_update_user_settings_idempotent
    (db : Session) (current_user : models.User.t)
    (settings : schemas.UserUpdate.t) :
  let r := main.update_users_me_settings settings db current_user in
  main.update_users_me_settings settings (snd r) (fst r) = r.
Proof.
  cbv zeta. unfold main.update_users_me_settings, crud.update_user_settings.
  cbn [fst snd users watchlist_items stock_notes alerts].
  rewrite apply_settings_idemp. f_equal. f_equal.
  rewrite <- list_fmap_compose. apply list_fmap_ext. intros i r _. cbn.
  destruct (decide (models.User.id r = models.User.id current_user)) as [Hr|Hr].
  - cbn. by rewrite decide_True.
  - by rewrite decide_False.
Qed.

(** ** Login *)

Section login.
Context {pwd_context : CryptContext} {signing : JoseSigning}.
Variables (SECRET_KEY ALGORITHM : string) (ACCESS_TOKEN_EXPIRE_MINUTES : Z).

(** The time a token issued at [utcnow] lives: the configured minutes,
    and fifteen minutes when the configured number is zero, since a zero
    [timedelta] is falsy. *)
Lemma create_access_token_expiry (data : gmap string json) (utcnow : Z) :
  crud.create_access_token SECRET_KEY ALGORITHM data
    (Some (datetime.minutes ACCESS_TOKEN_EXPIRE_MINUTES)) utcnow
  = jwt_encode
      (<["exp" := JNum (utcnow
                        + (if decide (ACCESS_TOKEN_EXPIRE_MINUTES = 0)
                           then datetime.minutes 15
                           else datetime.minutes ACCESS_TOKEN_EXPIRE_MINUTES))]>
         data)
      SECRET_KEY ALGORITHM.
Proof.
  unfold crud.create_access_token, datetime.truthy, datetime.minutes. simpl.
  destruct (decide (ACCESS_TOKEN_EXPIRE_MINUTES = 0)) as [->|Hne]; [done|].
  destruct (Z.eqb_spec (ACCESS_TOKEN_EXPIRE_MINUTES * 60000000) 0) as [Hz|_];
    [lia | done].
Qed.

(** X10.  The login handler answers 401 with one and the same detail when
    no stored user has the submitted name as email and when the password
    does not verify against the hash of the user found.  When it
    verifies, the handler returns a dict with exactly an access token and
    the token type bearer; the token is the encoding, under the
    configured key and algorithm, of exactly two claims: the subject, the
    user's email, and the expiry, the call time plus the configured
    minutes, or plus fifteen minutes when the configured number is
    zero. *)
Theorem X10_login_outcomes
    (form_data : OAuth2PasswordRequestForm.t) (db : Session) (utcnow : Z) :
  let login :=
    main.login_for_access_token SECRET_KEY ALGORITHM ACCESS_TOKEN_EXPIRE_MINUTES
      form_data db utcnow in
  let username := OAuth2PasswordRequestForm.username form_data in
  let password := OAuth2PasswordRequestForm.password form_data in
  ((username ∉ models.User.email <$> users db
    ∨ ∃ user, crud.get_user_by_email db username = Some user
              ∧ verify password (models.User.hashed_password user) = false) →
   login = Raise (HTTPException 401 "Incorrect username or password"))
  ∧ (∀ user, crud.get_user_by_email db username = Some user →
       verify password (models.User.hashed_password user) = true →
       ∃ claims : gmap string json,
         login = Return (<["access_token" :=
                             JStr (jwt_encode claims SECRET_KEY ALGORITHM)]>
                           (<["token_type" := JStr "bearer"]> ∅))
         ∧ dom claims = ({[ "sub"; "exp" ]} : gset string)
         ∧ claims !! "sub" = Some (JStr username)
         ∧ claims !! "exp"
           = Some (JNum (utcnow
                         + (if decide (ACCESS_TOKEN_EXPIRE_MINUTES = 0)
                            then datetime.minutes 15
                            else datetime.minutes ACCESS_TOKEN_EXPIRE_MINUTES)))).
Proof.
  intros login username password. unfold login, main.login_for_access_token.
  fold username password. unfold crud.authenticate_user, crud.verify_password.
  split.
  - intros [Hunknown | (user & -> & ->)]; [|done].
    by rewrite (get_user_by_email_fresh _ _ Hunknown).
  - intros user Hq Hverify. rewrite Hq, Hverify. cbn [negb].
    rewrite create_access_token_expiry.
    apply (first_filter_Some _) in Hq as [_ Hemail].
    eexists. split; [reflexivity|]. rewrite Hemail. split_and!.
    + rewrite dom_insert_L, dom_singleton_L. set_solver.
    + by simplify_map_eq.
    + by simplify_map_eq.
Qed.

End login.

(** The first sample user logs in with a wrong password and then with the
    right one, under a configured lifetime of zero minutes. *)
Lemma X10_witness :
  main.login_for_access_token (pwd_context := sample.tagged)
    (signing := sample.encoder) "secret" "HS256" 0
    (OAuth2PasswordRequestForm.mk "a@x.com" "wrong") sample.db_ab 1000
  = Raise (HTTPException 401 "Incorrect username or password")
  ∧ ∃ claims : gmap string json,
      main.login_for_access_token (pwd_context := sample.tagged)
        (signing := sample.encoder) "secret" "HS256" 0
        (OAuth2PasswordRequestForm.mk "a@x.com" "pw1") sample.db_ab 1000
      = Return (<["access_token" :=
                    JStr (jwt_encode (JoseSigning := sample.encoder) claims
                            "secret" "HS256")]>
                  (<["token_type" := JStr "bearer"]> ∅))
      ∧ claims !! "exp" = Some (JNum 900001000).
Proof.
  pose proof (X10_login_outcomes (pwd_context := sample.tagged)
                (signing := sample.encoder) "secret" "HS256" 0
                (OAuth2PasswordRequestForm.mk "a@x.com" "wrong") sample.db_ab 1000)
    as [Hfail _].
  pose proof (X10_login_outcomes (pwd_context := sample.tagged)
                (signing := sample.encoder) "secret" "HS256" 0
                (OAuth2PasswordRequestForm.mk "a@x.com" "pw1") sample.db_ab 1000)
    as [_ Hok].
  split.
  - apply Hfail. right. exists sample.user_a. split; reflexivity.
  - destruct (Hok sample.user_a eq_refl eq_refl) as (claims & Hlogin & _ & _ & Hexp).
    exists claims. split; [exact Hlogin | exact Hexp].
Defined.

Lemma create_user_then_lookup {pwd_context : CryptContext} (salt : string)
    (db db' : Session) (user : schemas.UserCreate.t) (db_user : models.User.t) :
  crud.create_user salt db user = (Return db_user, db') →
  crud.get_user_by_email db' (schemas.UserCreate.email user) = Some db_user
  ∧ models.User.email db_user = schemas.UserCreate.email user
  ∧ models.User.hashed_password db_user
    = hash salt (schemas.UserCreate.password user).
Proof.
  intros (Hfresh & Huser & ->)%create_user_Return.
  split_and!; [|by rewrite Huser|by rewrite Huser].
  unfold crud.get_user_by_email. cbn [users].
  replace (schemas.UserCreate.email user) with (models.User.email db_user)
    by (by rewrite Huser).
  apply (get_user_by_email_app_fresh db). by rewrite Huser.
Qed.

(** X11.  Registration and login compose: under the contract of the
    hashing primitive, a user the registration handler has just created
    logs in with the registered email and password and receives a bearer
    token whose subject claim is that email; a password that does not
    verify against the stored hash is answered 401. *)
Theorem X11_register_then_login
    {pwd_context : CryptContext} {laws : CryptContextLaws pwd_context}
    {signing : JoseSigning} (SECRET_KEY ALGORITHM : string)
    (ACCESS_TOKEN_EXPIRE_MINUTES : Z) (salt : string) (db db' : Session)
    (user : schemas.UserCreate.t) (db_user : models.User.t) (utcnow : Z) :
  main.create_user salt user db = (Return db_user, db') →
  (∃ claims : gmap string json,
     main.login_for_access_token SECRET_KEY ALGORITHM ACCESS_TOKEN_EXPIRE_MINUTES
       (OAuth2PasswordRequestForm.mk (schemas.UserCreate.email user)
          (schemas.UserCreate.password user)) db' utcnow
     = Return (<["access_token" := JStr (jwt_encode claims SECRET_KEY ALGORITHM)]>
                 (<["token_type" := JStr "bearer"]> ∅))
     ∧ claims !! "sub" = Some (JStr (schemas.UserCreate.email user)))
  ∧ (∀ password,
       verify password (models.User.hashed_password db_user) = false →
       main.login_for_access_token SECRET_KEY ALGORITHM ACCESS_TOKEN_EXPIRE_MINUTES
         (OAuth2PasswordRequestForm.mk (schemas.UserCreate.email user) password)
         db' utcnow
       = Raise (HTTPException 401 "Incorrect username or password")).
Proof.
  intros (Hq & Hemail & Hhash)%main_create_user_Return%create_user_then_lookup.
  unfold main.login_for_access_token, crud.authenticate_user,
    crud.verify_password.
  cbn [OAuth2PasswordRequestForm.username OAuth2PasswordRequestForm.password].
  rewrite Hq. split.
  - rewrite Hhash, verify_hash. cbn [negb].
    rewrite create_access_token_expiry, Hemail.
    eexists. split; [reflexivity|]. by simplify_map_eq.
  - by intros password ->.
Qed.

(** Registering a@x.com with pw1 in the empty store and logging in. *)
Lemma X11_witness :
  (∃ claims : gmap string json,
     main.login_for_access_token (pwd_context := sample.tagged)
       (signing := sample.encoder) "secret" "HS256" 30
       (OAuth2PasswordRequestForm.mk "a@x.com" "pw1")
       (mkSession [sample.user_a] [] [] []) 0
     = Return (<["access_token" :=
                   JStr (jwt_encode (JoseSigning := sample.encoder) claims
                           "secret" "HS256")]>
                 (<["token_type" := JStr "bearer"]> ∅))
     ∧ claims !! "sub" = Some (JStr "a@x.com"))
  ∧ main.login_for_access_token (pwd_context := sample.tagged)
      (signing := sample.encoder) "secret" "HS256" 30
      (OAuth2PasswordRequestForm.mk "a@x.com" "pw2")
      (mkSession [sample.user_a] [] [] []) 0
    = Raise (HTTPException 401 "Incorrect username or password").
Proof.
  destruct (X11_register_then_login (pwd_context := sample.tagged)
              (laws := tagged_laws) (signing := sample.encoder)
              "secret" "HS256" 30 "salt" database.empty
              (mkSession [sample.user_a] [] [] [])
              (schemas.UserCreate.mk "a@x.com" "pw1") sample.user_a 0 eq_refl)
    as [Hok Hbad].
  split; [exact Hok | apply Hbad; reflexivity].
Defined.

(** * Further properties of the outbound clients *)

(** ** Symbol search *)

(** A call under a key: the one request it sends and how the answer
    becomes its outcome. *)
Lemma _get_json_async_keyed (key : string)
    (upstream : list httpx.request -> httpx.request -> httpx.reply)
    (params : gmap string httpx.param) (sent : list httpx.request) :
  key ≠ "" →
  alphavantage._get_json_async (Some key) upstream params sent
  = (match upstream sent
             (alphavantage.BASE_URL, <["apikey" := httpx.PStr key]> params) with
     | httpx.ConnectError msg => Raise (RequestError msg)
     | httpx.Response status_code body =>
         if httpx.is_success status_code
         then match body with
              | Some data => Return data
              | None => Raise (JSONDecodeError "Expecting value")
              end
         else Raise (HTTPStatusError status_code)
     end,
     sent ++ [(alphavantage.BASE_URL, <["apikey" := httpx.PStr key]> params)]).
Proof.
  intros Hkey. unfold alphavantage._get_json_async, alphavantage.not_.
  rewrite bool_decide_eq_false_2 by done. cbn [default].
  destruct (upstream _ _) as [msg|status_code [data|]]; [done| |];
    by destruct (httpx.is_success status_code).
Qed.

(** X12.  With a key set, the search endpoint sends exactly one request,
    to the provider URL, with the function SYMBOL_SEARCH, the caller's
    keywords and the server's key.  A 2xx answer with a JSON body is
    returned as it is; a connection failure and every answer outside 2xx
    give status 500 with a fixed detail that carries nothing of the
    provider's answer; a 2xx answer whose body does not decode gives
    status 400. *)
Theorem X12_search_stock_endpoint_outcomes
    (key : string)
    (upstream : list httpx.request -> httpx.request -> httpx.reply)
    (keywords : string) (sent : list httpx.request) :
  key ≠ "" →
  let rq : httpx.request :=
    (alphavantage.BASE_URL,
     <["apikey" := httpx.PStr key]>
       (<["function" := httpx.PStr "SYMBOL_SEARCH"]>
          (<["keywords" := httpx.PStr keywords]> ∅))) in
  let response := fst (main.search_stock_endpoint (Some key) upstream keywords sent) in
  snd (main.search_stock_endpoint (Some key) upstream keywords sent) = sent ++ [rq]
  ∧ (∀ status_code data,
       upstream sent rq = httpx.Response status_code (Some data) →
       200 ≤ status_code < 300 → response = Return data)
  ∧ (∀ msg, upstream sent rq = httpx.ConnectError msg →
       response = Raise (HTTPException 500 "Error fetching stock data"))
  ∧ (∀ status_code body,
       upstream sent rq = httpx.Response status_code body →
       ¬ 200 ≤ status_code < 300 →
       response = Raise (HTTPException 500 "Error fetching stock data"))
  ∧ (∀ status_code,
       upstream sent rq = httpx.Response status_code None →
       200 ≤ status_code < 300 → http_status response = 400).
Proof.
  intros Hkey rq response.
  unfold response, main.search_stock_endpoint, asyncio.try_except,
    alphavantage.search_stock_async.
  rewrite _get_json_async_keyed by done. fold rq.
  assert (∀ c, 200 ≤ c < 300 → httpx.is_success c = true) as Hin.
  { intros c Hc. unfold httpx.is_success.
    apply andb_true_intro. split; [apply Z.leb_le | apply Z.ltb_lt]; lia. }
  assert (∀ c, ¬ 200 ≤ c < 300 → httpx.is_success c = false) as Hout.
  { intros c Hc. unfold httpx.is_success.
    destruct (Z.leb_spec 200 c), (Z.ltb_spec c 300); try done. lia. }
  split_and!.
  - destruct (upstream sent rq) as [msg|status_code [data|]]; [done| |];
      by destruct (httpx.is_success status_code).
  - intros status_code data -> Hrange. by rewrite Hin.
  - by intros msg ->.
  - intros status_code body -> Hrange. by rewrite Hout.
  - intros status_code -> Hrange. by rewrite Hin.
Qed.

(** A provider that answers every search with 503. *)
Lemma X12_witness :
  fst (main.search_stock_endpoint (Some "demo")
         (λ _ _, httpx.Response 503 (Some (JStr "rate limit"))) "apple" [])
  = Raise (HTTPException 500 "Error fetching stock data")
  ∧ length (snd (main.search_stock_endpoint (Some "demo")
                   (λ _ _, httpx.Response 503 (Some (JStr "rate limit")))
                   "apple" [])) = 1%nat.
Proof.
  destruct (X12_search_stock_endpoint_outcomes "demo"
              (λ _ _, httpx.Response 503 (Some (JStr "rate limit"))) "apple" [])
    as (Hlog & _ & _ & Hstatus & _); [done|].
  split.
  - apply (Hstatus 503 (Some (JStr "rate limit"))); [reflexivity | lia].
  - by rewrite Hlog.
Defined.

(** ** The six requests of the stock detail *)

(** X13.  With a key set, the stock-detail endpoint sends exactly these
    six requests, in this order, whatever the provider answers and in
    whatever order the calls finish: each goes to the provider URL and
    carries the server's key; the symbol is passed on unchanged, as
    [symbol] or, for the news, as [tickers]; the series is asked in its
    compact size and the two indicators on daily closes with periods 14
    and 20. *)
Theorem X13_stock_detail_requests
    (key : string)
    (upstream : list httpx.request -> httpx.request -> httpx.reply)
    (order : list nat) (symbol : string) (sent : list httpx.request) :
  key ≠ "" →
  snd (main.get_stock_details_endpoint (Some key) upstream order symbol sent)
  = sent ++
    ((λ p, (alphavantage.BASE_URL, <["apikey" := httpx.PStr key]> p)) <$>
     [ <["function" := httpx.PStr "OVERVIEW"]>
         (<["symbol" := httpx.PStr symbol]> ∅);
       <["function" := httpx.PStr "EARNINGS"]>
         (<["symbol" := httpx.PStr symbol]> ∅);
       <["function" := httpx.PStr "TIME_SERIES_DAILY"]>
         (<["symbol" := httpx.PStr symbol]>
            (<["outputsize" := httpx.PStr "compact"]> ∅));
       <["function" := httpx.PStr "RSI"]>
         (<["symbol" := httpx.PStr symbol]>
            (<["interval" := httpx.PStr "daily"]>
               (<["time_period" := httpx.PInt 14]>
                  (<["series_type" := httpx.PStr "close"]> ∅))));
       <["function" := httpx.PStr "BBANDS"]>
         (<["symbol" := httpx.PStr symbol]>
            (<["interval" := httpx.PStr "daily"]>
               (<["time_period" := httpx.PInt 20]>
                  (<["series_type" := httpx.PStr "close"]> ∅))));
       <["function" := httpx.PStr "NEWS_SENTIMENT"]>
         (<["tickers" := httpx.PStr symbol]> ∅) ]).
Proof.
  intros Hkey. rewrite get_stock_details_endpoint_log.
  assert (alphavantage.not_ (Some key) = false) as Hset.
  { cbn. by apply bool_decide_eq_false_2. }
  by rewrite <- (run_all_get_json_log (Some key) upstream _ sent Hset).
Qed.

(** The six requests for AAPL against a provider that is down. *)
Lemma X13_witness :
  alphavantage.functions_of
    (snd (main.get_stock_details_endpoint (Some "demo")
            (λ _ _, httpx.ConnectError "down") [] "AAPL" []))
  = httpx.PStr <$> ["OVERVIEW"; "EARNINGS"; "TIME_SERIES_DAILY"; "RSI";
                    "BBANDS"; "NEWS_SENTIMENT"].
Proof.
  rewrite (X13_stock_detail_requests "demo" (λ _ _, httpx.ConnectError "down")
             [] "AAPL" []) by done.
  reflexivity.
Defined.

(** ** Sending a message *)

(** X14.  The message endpoint hands nothing to the bot library and
    answers 400 when the bot token is unset or empty.  With a token it
    hands over exactly one message, under the process-wide token and with
    the chat id and text of the request; it answers with the success
    message when the library returns and with status 500 and a fixed
    detail when the library raises anything but a [ValueError]. *)
Theorem X14_send_telegram_message_endpoint_outcomes
    (TELEGRAM_BOT_TOKEN : option string)
    (send_message : list telegram_bot.outgoing -> telegram_bot.outgoing
                    -> result unit)
    (chat_id message : string) (outbox : list telegram_bot.outgoing) :
  let r :=
    main.send_telegram_message_endpoint TELEGRAM_BOT_TOKEN send_message
      chat_id message outbox in
  (telegram_bot.not_ TELEGRAM_BOT_TOKEN = true →
   r = (Raise (HTTPException 400
                 "TELEGRAM_BOT_TOKEN environment variable not set."),
        outbox))
  ∧ (∀ token, TELEGRAM_BOT_TOKEN = Some token → token ≠ "" →
       snd r = outbox ++ [(token, chat_id, message)]
       ∧ (send_message outbox (token, chat_id, message) = Return tt →
          fst r = Return {[ "message" := JStr "Message sent successfully!" ]})
       ∧ (∀ e, send_message outbox (token, chat_id, message) = Raise e →
               isinstance_ValueError e = false →
               fst r = Raise (HTTPException 500 "Error sending message"))).
Proof.
  cbv zeta. unfold main.send_telegram_message_endpoint,
    telegram_bot.send_telegram_message.
  split.
  - by intros ->.
  - intros token -> Htoken. cbn [telegram_bot.not_ default from_option id].
    rewrite bool_decide_eq_false_2 by done. cbv zeta. split_and!.
    + by destruct (send_message _ _).
    + by intros ->.
    + by intros e -> ->.
Qed.

(** A token is set and the library cannot reach the messaging service;
    then no token is set. *)
Lemma X14_witness :
  main.send_telegram_message_endpoint (Some "123:abc")
    (λ _ _, Raise (RequestError "timed out")) "42" "hello" []
  = (Raise (HTTPException 500 "Error sending message"),
     [("123:abc", "42", "hello")])
  ∧ main.send_telegram_message_endpoint None
      (λ _ _, Return tt) "42" "hello" []
    = (Raise (HTTPException 400
                "TELEGRAM_BOT_TOKEN environment variable not set."), []).
Proof.
  pose proof (X14_send_telegram_message_endpoint_outcomes (Some "123:abc")
                (λ _ _, Raise (RequestError "timed out")) "42" "hello" [])
    as [_ Hset].
  pose proof (X14_send_telegram_message_endpoint_outcomes None
                (λ _ _, Return tt) "42" "hello" []) as [Hunset _].
  cbv zeta in Hset, Hunset. split.
  - destruct (Hset "123:abc" eq_refl) as (Hbox & _ & Hraise); [done|].
    apply injective_projections; [|exact Hbox].
    by apply (Hraise (RequestError "timed out")).
  - by apply Hunset.
Defined.

(** ** Updating a note in place *)

(** X15.  With unique note keys, a create-or-update that finds a note for
    the owner and symbol rewrites that row where it stands: it keeps its
    key, symbol and owner and takes the new text, every other row of the
    table is untouched and the table keeps its length.  When no note is
    found the table gains one row at the end, under a key no stored note
    had. *)
Theorem X15_upsert_rewrites_the_found_row_in_place
    (db : Session) (user_id : Z) (symbol note_content : string) :
  NoDup (models.StockNote.id <$> stock_notes db) →
  let r := crud.create_or_update_stock_note db user_id symbol note_content in
  (∀ n, crud.get_stock_note db user_id symbol = Some n →
     fst r = models.StockNote.mk (models.StockNote.id n) symbol note_content user_id
     ∧ ∃ l1 l2, stock_notes db = l1 ++ n :: l2
                ∧ stock_notes (snd r) = l1 ++ fst r :: l2)
  ∧ (crud.get_stock_note db user_id symbol = None →
     stock_notes (snd r) = stock_notes db ++ [fst r]
     ∧ (models.StockNote.id (fst r) ∉ models.StockNote.id <$> stock_notes db)
     ∧ fst r = models.StockNote.mk (models.StockNote.id (fst r)) symbol
                 note_content user_id).
Proof.
  intros Hnd r. unfold r, crud.create_or_update_stock_note. split.
  - intros n Hq. rewrite Hq. cbn [fst snd stock_notes].
    apply get_stock_note_Some in Hq as (Hin & Hown & Hsym).
    split.
    + unfold crud.set_note. rewrite decide_True by done. by rewrite Hown, Hsym.
    + apply list_elem_of_split in Hin as (l1 & l2 & Hsplit).
      exists l1, l2. split; [done|].
      rewrite Hsplit in Hnd |- *. rewrite fmap_app, fmap_cons in Hnd.
      apply NoDup_app in Hnd as (_ & Hl1 & [Hl2 _]%NoDup_cons).
      rewrite fmap_app, fmap_cons. f_equal; [|f_equal].
      * etrans; [|apply list_fmap_id]. apply list_fmap_ext. intros i x Hx.
        unfold crud.set_note, id. rewrite decide_False; [done|].
        intros Heq. apply (Hl1 (models.StockNote.id x)).
        -- eapply list_elem_of_fmap_2, list_elem_of_lookup_2, Hx.
        -- rewrite Heq. left.
      * etrans; [|apply list_fmap_id]. apply list_fmap_ext. intros i x Hx.
        unfold crud.set_note, id. rewrite decide_False; [done|].
        intros Heq. apply Hl2. rewrite <- Heq.
        eapply list_elem_of_fmap_2, list_elem_of_lookup_2, Hx.
  - intros ->. cbn [fst snd stock_notes models.StockNote.id].
    split_and!; [done | apply fresh_id_fresh | done].
Qed.

(** User 1 rewrites their AAPL note, the first of three rows. *)
Lemma X15_witness :
  let db :=
    mkSession [] []
      [ models.StockNote.mk 1 "AAPL" "mine" 1;
        models.StockNote.mk 2 "AAPL" "theirs" 2;
        models.StockNote.mk 3 "GOOG" "mine too" 1 ] [] in
  fst (crud.create_or_update_stock_note db 1 "AAPL" "rewritten")
  = models.StockNote.mk 1 "AAPL" "rewritten" 1
  ∧ ∃ l1 l2,
      stock_notes db = l1 ++ models.StockNote.mk 1 "AAPL" "mine" 1 :: l2
      ∧ stock_notes (snd (crud.create_or_update_stock_note db 1 "AAPL" "rewritten"))
        = l1 ++ fst (crud.create_or_update_stock_note db 1 "AAPL" "rewritten")
             :: l2.
Proof.
  intros db.
  destruct (X15_upsert_rewrites_the_found_row_in_place db 1 "AAPL" "rewritten")
    as [Hfound _]; [compute_done|].
  exact (Hfound (models.StockNote.mk 1 "AAPL" "mine" 1) eq_refl).
Defined.
